(** * links_tree: the data-to-DOM rendering pipeline of [script.js]

    A shallow embedding of [LinkTreeApp] (script.js): the icon table and the
    icon resolver [getIcon], the card builder [createLinkCard], the renderers
    [updateProfile] and [renderLinks], the loader [loadJSON], the error
    presenter [handleError] and the start-up sequence [init].

    JavaScript strings are sequences of UTF-16 code units; the page is a
    record of the slots the script reads and writes; code that assigns to the
    page or throws runs in a state-and-exception monad whose state survives a
    throw, as the page does. *)

From Stdlib Require Import List NArith String Ascii Bool Lia.
Import ListNotations.

Local Open Scope N_scope.

(** ** JavaScript strings *)

(** A JavaScript string: its UTF-16 code units, so that [length] is the
    script's [.length]. *)
Definition jsstring : Type := list N.

Fixpoint jsstring_eqb (s t : jsstring) : bool :=
  match s, t with
  | [], [] => true
  | c :: s', d :: t' => (c =? d) && jsstring_eqb s' t'
  | _, _ => false
  end.

(** Code points of a UTF-8 byte sequence (the encoding of this file and of
    script.js), used only to write down the script's literals. *)
Fixpoint utf8_points (bs : list N) : list N :=
  match bs with
  | [] => []
  | b0 :: r0 =>
      if b0 <? 0x80 then b0 :: utf8_points r0
      else
        match r0 with
        | [] => [b0]
        | b1 :: r1 =>
            if b0 <? 0xE0
            then ((b0 - 0xC0) * 0x40 + (b1 - 0x80)) :: utf8_points r1
            else
              match r1 with
              | [] => [b0; b1]
              | b2 :: r2 =>
                  if b0 <? 0xF0
                  then ((b0 - 0xE0) * 0x1000 + (b1 - 0x80) * 0x40 + (b2 - 0x80))
                         :: utf8_points r2
                  else
                    match r2 with
                    | [] => [b0; b1; b2]
                    | b3 :: r3 =>
                        ((b0 - 0xF0) * 0x40000 + (b1 - 0x80) * 0x1000
                         + (b2 - 0x80) * 0x40 + (b3 - 0x80))
                          :: utf8_points r3
                    end
              end
        end
  end.

(** UTF-16 code units of one code point. *)
Definition utf16_units (c : N) : list N :=
  if c <? 0x10000 then [c]
  else [0xD800 + (c - 0x10000) / 0x400; 0xDC00 + (c - 0x10000) mod 0x400].

(** The JavaScript string denoted by a literal of the script. *)
Definition js (lit : string) : jsstring :=
  flat_map utf16_units (utf8_points (map N_of_ascii (list_ascii_of_string lit))).

Definition is_high_surrogate (u : N) : bool := (0xD800 <=? u) && (u <=? 0xDBFF).
Definition is_low_surrogate (u : N) : bool := (0xDC00 <=? u) && (u <=? 0xDFFF).

(** The code points a [/u] regular expression sees: a high surrogate followed
    by a low one is one code point, any other unit stands for itself. *)
Fixpoint codePoints (s : jsstring) : list N :=
  match s with
  | [] => []
  | h :: tl =>
      match tl with
      | l :: rest =>
          if is_high_surrogate h && is_low_surrogate l
          then (0x10000 + (h - 0xD800) * 0x400 + (l - 0xDC00)) :: codePoints rest
          else h :: codePoints tl
      | [] => [h]
      end
  end.

(** WhiteSpace and LineTerminator code units, the ones [String.prototype.trim]
    strips. *)
Definition is_whitespace (u : N) : bool :=
  (u =? 0x09) || (u =? 0x0A) || (u =? 0x0B) || (u =? 0x0C) || (u =? 0x0D)
  || (u =? 0x20) || (u =? 0xA0) || (u =? 0x1680)
  || ((0x2000 <=? u) && (u <=? 0x200A))
  || (u =? 0x2028) || (u =? 0x2029) || (u =? 0x202F) || (u =? 0x205F)
  || (u =? 0x3000) || (u =? 0xFEFF).

Fixpoint trimStart (s : jsstring) : jsstring :=
  match s with
  | u :: s' => if is_whitespace u then trimStart s' else s
  | [] => []
  end.

Definition trimEnd (s : jsstring) : jsstring := rev (trimStart (rev s)).

(** [String.prototype.trim]. *)
Definition trim (s : jsstring) : jsstring := trimEnd (trimStart s).

(** [String.prototype.toLowerCase] on strings of Basic Latin code units,
    where it maps [A]-[Z] to [a]-[z] and keeps every other unit.  The renderers
    below take the lower-casing function as a parameter; this one instantiates
    it for concrete runs on Basic Latin and symbol-only tokens. *)
Definition asciiLowerCase (s : jsstring) : jsstring :=
  map (fun u => if (0x41 <=? u) && (u <=? 0x5A) then u + 0x20 else u) s.

(** ** Values read from the icon table *)

(** Built-in objects reachable from an object literal through its prototype. *)
Inductive native : Type :=
| ObjectConstructor
| ObjectPrototype
| BuiltinFunction (name : string).

(** The values the script handles: what a field of the JSON document or a
    property of [ICON_MAP] can hold. *)
Inductive value : Type :=
| VUndefined
| VBoolean (b : bool)
| VString (s : jsstring)
| VNative (o : native).

(** Reading an optional field: an absent one reads as [undefined]. *)
Definition stringField (f : option jsstring) : value :=
  match f with
  | Some s => VString s
  | None => VUndefined
  end.

Definition booleanField (f : option bool) : value :=
  match f with
  | Some b => VBoolean b
  | None => VUndefined
  end.

(** ToBoolean. *)
Definition truthy (v : value) : bool :=
  match v with
  | VUndefined => false
  | VBoolean b => b
  | VString [] => false
  | VString (_ :: _) => true
  | VNative _ => true
  end.

(** [a !== false] *)
Definition notStrictlyFalse (a : value) : bool :=
  match a with
  | VBoolean false => false
  | _ => true
  end.

(** [a || b] *)
Definition or_else (a b : value) : value := if truthy a then a else b.

(** ToString, as applied by a template literal and by the DOM when a value is
    assigned to a string attribute. *)
Definition toDOMString (v : value) : jsstring :=
  match v with
  | VUndefined => js "undefined"
  | VBoolean true => js "true"
  | VBoolean false => js "false"
  | VString s => s
  | VNative ObjectConstructor => js "function Object() { [native code] }"
  | VNative ObjectPrototype => js "[object Object]"
  | VNative (BuiltinFunction name) =>
      js ("function " ++ name ++ "() { [native code] }")
  end.

(** ** Configuration and icon mapping *)

Module CONFIG.
Definition linksFile : jsstring := js "links.json".
Definition animationDelay : N := 100.
End CONFIG.

(** The own properties of the object literal [ICON_MAP]. *)
Definition ICON_MAP : list (jsstring * jsstring) :=
  [ (js "portfolio", js "💼");
    (js "resume", js "📄");
    (js "linkedin", js "💼");
    (js "blog", js "✍️");
    (js "github", js "👨‍💻");
    (js "email", js "✉️");
    (js "twitter", js "🐦");
    (js "website", js "🌐");
    (js "youtube", js "📺");
    (js "medium", js "📝");
    (js "dribbble", js "🎨");
    (js "behance", js "🎨");
    (js "instagram", js "📸");
    (js "facebook", js "👥");
    (js "discord", js "💬");
    (js "slack", js "💬");
    (js "telegram", js "✈️");
    (js "whatsapp", js "💬");
    (js "phone", js "📞");
    (js "calendar", js "📅");
    (js "research", js "🔬");
    (js "publication", js "📚");
    (js "project", js "🚀");
    (js "default", js "🔗") ].

Fixpoint ownProperty (key : jsstring) (o : list (jsstring * jsstring))
  : option jsstring :=
  match o with
  | [] => None
  | (k, v) :: o' => if jsstring_eqb k key then Some v else ownProperty key o'
  end.

(** The function-valued properties of [Object.prototype]. *)
Definition Object_prototype_methods : list string :=
  [ "hasOwnProperty"; "isPrototypeOf"; "propertyIsEnumerable";
    "toLocaleString"; "toString"; "valueOf";
    "__defineGetter__"; "__defineSetter__";
    "__lookupGetter__"; "__lookupSetter__" ]%string.

(** A property read that reaches [Object.prototype], the prototype of every
    object literal: [constructor] is [Object], the [__proto__] getter answers
    the receiver's prototype, which is [Object.prototype] itself. *)
Definition Object_prototype_get (key : jsstring) : value :=
  if jsstring_eqb key (js "constructor") then VNative ObjectConstructor
  else if jsstring_eqb key (js "__proto__") then VNative ObjectPrototype
  else
    match find (fun m => jsstring_eqb key (js m)) Object_prototype_methods with
    | Some m => VNative (BuiltinFunction m)
    | None => VUndefined
    end.

(** [ICON_MAP[key]]: an own property, else the prototype chain. *)
Definition ICON_MAP_get (key : jsstring) : value :=
  match ownProperty key ICON_MAP with
  | Some glyph => VString glyph
  | None => Object_prototype_get key
  end.

(** [/[\u{1F300}-\u{1F9FF}]/u.test(s)] *)
Definition in_symbol_range (c : N) : bool := (0x1F300 <=? c) && (c <=? 0x1F9FF).

Definition symbol_range_test (s : jsstring) : bool :=
  existsb in_symbol_range (codePoints s).

(** ** Data model: the JSON document *)

Module Profile.
Record t : Type := mk {
  image : option jsstring;
  name : option jsstring;
  title : option jsstring;
  bio : option jsstring
}.
End Profile.

Module Link.
Record t : Type := mk {
  url : jsstring;
  title : jsstring;
  description : option jsstring;
  icon : option jsstring;
  active : option bool;
  analytics : option bool
}.
End Link.

Record LinkDocument : Type := mkDocument {
  profile : option Profile.t;
  links : option (list Link.t)
}.

(** ** The page *)

(** A click observer registered on a card. *)
Inductive listener : Type :=
| TrackClick (link : Link.t).

Set Warnings "-register-all".

(** A DOM node.  [Markup] is a fragment assigned through [innerHTML] and kept
    as the string assigned; the script assigns the three constant fragments
    below and icon glyphs, and never reads a fragment back. *)
Inductive node : Type :=
| Element (tagName className : string)
          (attributes : list (string * jsstring))
          (clickListeners : list listener)
          (childNodes : list node)
| Text (data : jsstring)
| Markup (html : jsstring).

(** [el.innerHTML = html] and [el.textContent = s]: the new children. *)
Definition innerHTML (html : jsstring) : list node :=
  match html with
  | [] => []
  | _ :: _ => [Markup html]
  end.

Definition textContent (s : jsstring) : list node :=
  match s with
  | [] => []
  | _ :: _ => [Text s]
  end.

Record image_element : Type := mkImage {
  src : jsstring;
  alt : jsstring
}.

Inductive error : Type :=
| NetworkError
| LoadFailure (message : jsstring)
| ParseFailure
| TypeError (message : jsstring).

Inductive log_entry : Type :=
| ConsoleError (label : jsstring) (e : error).

(** The part of the page the script touches.  A slot is [None] when
    [document.getElementById] finds no element of that id; a text slot holds
    the element's text, the container its child nodes. *)
Record page : Type := mkPage {
  document_title : jsstring;
  profileImage : option image_element;
  profileName : option jsstring;
  profileTitle : option jsstring;
  profileBio : option jsstring;
  linksContainer : option (list node);
  console : list log_entry
}.

Definition set_document_title (v : jsstring) (d : page) : page :=
  mkPage v (profileImage d) (profileName d) (profileTitle d) (profileBio d)
         (linksContainer d) (console d).

Definition set_profileImage (v : option image_element) (d : page) : page :=
  mkPage (document_title d) v (profileName d) (profileTitle d) (profileBio d)
         (linksContainer d) (console d).

Definition set_profileName (v : option jsstring) (d : page) : page :=
  mkPage (document_title d) (profileImage d) v (profileTitle d) (profileBio d)
         (linksContainer d) (console d).

Definition set_profileTitle (v : option jsstring) (d : page) : page :=
  mkPage (document_title d) (profileImage d) (profileName d) v (profileBio d)
         (linksContainer d) (console d).

Definition set_profileBio (v : option jsstring) (d : page) : page :=
  mkPage (document_title d) (profileImage d) (profileName d) (profileTitle d) v
         (linksContainer d) (console d).

Definition set_linksContainer (v : option (list node)) (d : page) : page :=
  mkPage (document_title d) (profileImage d) (profileName d) (profileTitle d)
         (profileBio d) v (console d).

Definition set_console (v : list log_entry) (d : page) : page :=
  mkPage (document_title d) (profileImage d) (profileName d) (profileTitle d)
         (profileBio d) (linksContainer d) v.

(** ** Statements that change the page and may throw *)

Inductive completion (A : Type) : Type :=
| Normal (a : A)
| Throw (e : error).

Arguments Normal {A} a.
Arguments Throw {A} e.

(** A computation runs from a page to the page it leaves and how it
    completed; what was written before a throw stays written. *)
Definition M (A : Type) : Type := page -> page * completion A.

Definition ret {A : Type} (a : A) : M A := fun d => (d, Normal a).

Definition throw {A : Type} (e : error) : M A := fun d => (d, Throw e).

Definition bind {A B : Type} (m : M A) (k : A -> M B) : M B :=
  fun d =>
    match m d with
    | (d', Normal a) => k a d'
    | (d', Throw e) => (d', Throw e)
    end.

Definition try_catch {A : Type} (body : M A) (handler : error -> M A) : M A :=
  fun d =>
    match body d with
    | (d', Normal a) => (d', Normal a)
    | (d', Throw e) => handler e d'
    end.

Definition modify (f : page -> page) : M unit := fun d => (f d, Normal tt).

Definition when (c : bool) (m : M unit) : M unit := if c then m else ret tt.

Definition exec {A : Type} (m : M A) (d : page) : page := fst (m d).

Definition result {A : Type} (m : M A) (d : page) : completion A := snd (m d).

Notation "x <- m ;; k" := (bind m (fun x => k))
  (at level 61, m at next level, right associativity).
Notation "m ;; k" := (bind m (fun _ => k))
  (at level 61, right associativity).

(** [array.forEach((x, index) => f(x, index))] *)
Fixpoint forEachFrom {A : Type} (f : A -> nat -> M unit) (l : list A) (index : nat)
  : M unit :=
  match l with
  | [] => ret tt
  | x :: l' => f x index ;; forEachFrom f l' (S index)
  end.

Definition forEach {A : Type} (l : list A) (f : A -> nat -> M unit) : M unit :=
  forEachFrom f l 0%nat.

(** [console.error(label, e)] *)
Definition console_error (label : jsstring) (e : error) : M unit :=
  modify (fun d => set_console (console d ++ [ConsoleError label e]) d).

(** [this.linksContainer.innerHTML = html]; a [TypeError] when the page has no
    [#linksContainer], for the constructor then stored [null]. *)
Definition linksContainer_set_innerHTML (html : jsstring) : M unit :=
  fun d =>
    match linksContainer d with
    | Some _ => (set_linksContainer (Some (innerHTML html)) d, Normal tt)
    | None =>
        (d, Throw (TypeError (js "Cannot set properties of null (setting 'innerHTML')")))
    end.

(** [this.linksContainer.appendChild(child)] *)
Definition linksContainer_appendChild (child : node) : M unit :=
  fun d =>
    match linksContainer d with
    | Some children => (set_linksContainer (Some (children ++ [child])) d, Normal tt)
    | None =>
        (d, Throw (TypeError (js "Cannot read properties of null (reading 'appendChild')")))
    end.

(** ** The constant fragments *)

Definition dq : string := String (ascii_of_N 34) EmptyString.
Definition nl : string := String (ascii_of_N 10) EmptyString.

(** ['<p class="loading">No links available</p>'] *)
Definition NO_LINKS : jsstring :=
  js ("<p class=" ++ dq ++ "loading" ++ dq ++ ">No links available</p>").

(** The template literal of [handleError]. *)
Definition ERROR_VIEW : jsstring :=
  js (nl ++
      "            <div class=" ++ dq ++ "loading" ++ dq ++ " style=" ++ dq ++ "color: #E53E3E;" ++ dq ++ ">" ++ nl ++
      "                <p>⚠️ Error loading links</p>" ++ nl ++
      "                <p style=" ++ dq ++ "font-size: 0.9rem; margin-top: 0.5rem;" ++ dq ++ ">" ++ nl ++
      "                    Please make sure <code>links.json</code> exists and is valid JSON." ++ nl ++
      "                </p>" ++ nl ++
      "            </div>" ++ nl ++
      "        ").

(** The link cards among a list of nodes: the [a.link-card] elements. *)
Definition is_card (n : node) : bool :=
  match n with
  | Element tag cls _ _ _ => String.eqb tag "a" && String.eqb cls "link-card"
  | _ => false
  end.

Definition cards (d : page) : list node :=
  match linksContainer d with
  | Some children => filter is_card children
  | None => []
  end.

(** The elements of a class in a subtree, in document order. *)
Fixpoint getElementsByClassName (cls : string) (n : node) : list node :=
  match n with
  | Element _ c _ _ kids =>
      (if String.eqb c cls then [n] else [])
        ++ flat_map (getElementsByClassName cls) kids
  | _ => []
  end.

(** The network: what [fetch] and [response.json()] give. *)
Record response : Type := mkResponse {
  ok : bool;
  json : option LinkDocument
}.

(** ** Click tracking *)

(** The call [gtag(command, action, {event_category, event_label, value})]. *)
Module Gtag.
Record call : Type := mk {
  command : jsstring;
  action : jsstring;
  event_category : jsstring;
  event_label : jsstring;
  value : jsstring
}.
End Gtag.

(** Where [trackClick] reports: the arguments of each [console.log] call, and
    the calls received by the global [gtag]; [gtag] is [None] when
    [typeof gtag] is ['undefined']. *)
Record tracking : Type := mkTracking {
  console_log : list (jsstring * jsstring * jsstring);
  gtag : option (list Gtag.call)
}.

(** [trackClick(link)] *)
Definition trackClick (link : Link.t) (s : tracking) : tracking :=
  let s :=
    mkTracking (console_log s ++ [(js "Link clicked:", Link.title link, Link.url link)])
               (gtag s) in
  match gtag s with
  | Some calls =>
      mkTracking (console_log s)
                 (Some (calls ++ [Gtag.mk (js "event") (js "click") (js "Link")
                                          (Link.title link) (Link.url link)]))
  | None => s
  end.

(** A click dispatched at an element runs its click observers in the order
    they were registered; [() => this.trackClick(link)] is the only observer
    the script registers. *)
Definition runListener (l : listener) (s : tracking) : tracking :=
  match l with
  | TrackClick link => trackClick link s
  end.

Definition click (n : node) (s : tracking) : tracking :=
  match n with
  | Element _ _ _ observers _ => fold_left (fun s l => runListener l s) observers s
  | _ => s
  end.

(** ** Sample inputs *)

Definition samplePage : page :=
  mkPage (js "Links")
         (Some (mkImage (js "avatar.png") (js "Profile")))
         (Some (js "Your Name")) (Some (js "Your Title")) (Some (js "Your bio"))
         (Some [Markup (js "<p>Loading links...</p>")])
         [].

Definition sampleProfile : Profile.t :=
  Profile.mk (Some (js "me.png")) (Some (js "Ada")) (Some (js "Engineer")) None.

Definition emptyNameProfile : Profile.t :=
  Profile.mk None (Some (js "")) None None.

Definition emptyTitleProfile : Profile.t :=
  Profile.mk None (Some (js "Ada")) (Some (js "")) None.

Definition githubLink : Link.t :=
  Link.mk (js "https://x") (js "GitHub") None (Some (js "github")) None None.

Definition hiddenLink : Link.t :=
  Link.mk (js "https://old.example") (js "Old blog") (Some (js "Archived"))
          (Some (js "blog")) (Some false) None.

Definition emailLink : Link.t :=
  Link.mk (js "mailto:ada@example.org") (js "Email") (Some (js "Say hello"))
          (Some (js "email")) (Some true) (Some true).

Definition emptyDescriptionLink : Link.t :=
  Link.mk (js "https://y") (js "Notes") (Some (js "")) None None None.

Definition sampleLinks : list Link.t := [githubLink; hiddenLink; emailLink].

(** A host whose every request is answered by a response that is not [ok]. *)
Definition fetchNotOk (filename : jsstring) : option response :=
  Some (mkResponse false None).

Definition pageWithoutContainer : page := set_linksContainer None samplePage.

Definition sampleDocument : LinkDocument :=
  mkDocument (Some sampleProfile) (Some sampleLinks).

(** A host that answers every request with [sampleDocument]. *)
Definition fetchSample (filename : jsstring) : option response :=
  Some (mkResponse true (Some sampleDocument)).

Definition sampleTracking : tracking := mkTracking [] (Some []).

(** ** The application *)

Section LinkTreeApp.

(** [String.prototype.toLowerCase], a built-in of the host. *)
Variable toLowerCase : jsstring -> jsstring.

(** The host's [fetch]: [None] when the request is rejected. *)
Variable fetch : jsstring -> option response.

(** [loadJSON(filename)] *)
Definition loadJSON (filename : jsstring) : M LinkDocument :=
  try_catch
    (match fetch filename with
     | None => throw NetworkError
     | Some response =>
         if negb (ok response)
         then throw (LoadFailure (js "Failed to load " ++ filename))
         else
           match json response with
           | Some data => ret data
           | None => throw ParseFailure
           end
     end)
    (fun error =>
       console_error (js "Error loading JSON:") error ;;
       throw error).

(** [updateProfile(profile)] *)
Definition updateProfile (profile : option Profile.t) : M unit :=
  match profile with
  | None => ret tt
  | Some profile =>
      when (truthy (stringField (Profile.image profile)))
        (modify (fun d =>
           match profileImage d with
           | Some el =>
               let el := mkImage (toDOMString (stringField (Profile.image profile)))
                                 (alt el) in
               let el := mkImage (src el)
                                 (toDOMString
                                    (or_else (stringField (Profile.name profile))
                                             (VString (js "Profile Picture")))) in
               set_profileImage (Some el) d
           | None => d
           end)) ;;
      when (truthy (stringField (Profile.name profile)))
        (modify (fun d =>
           match profileName d with
           | Some _ =>
               set_profileName
                 (Some (toDOMString (stringField (Profile.name profile)))) d
           | None => d
           end) ;;
         modify (set_document_title
                   (toDOMString (stringField (Profile.name profile))
                    ++ js " | "
                    ++ toDOMString
                         (or_else (stringField (Profile.title profile))
                                  (VString (js "Links")))))) ;;
      when (truthy (stringField (Profile.title profile)))
        (modify (fun d =>
           match profileTitle d with
           | Some _ =>
               set_profileTitle
                 (Some (toDOMString (stringField (Profile.title profile)))) d
           | None => d
           end)) ;;
      when (truthy (stringField (Profile.bio profile)))
        (modify (fun d =>
           match profileBio d with
           | Some _ =>
               set_profileBio
                 (Some (toDOMString (stringField (Profile.bio profile)))) d
           | None => d
           end))
  end.

(** [getIcon(iconName)]; [None] is an absent token, and [!iconName] holds of
    an absent and of an empty one. *)
Definition getIcon (iconName : option jsstring) : value :=
  match iconName with
  | None | Some [] => ICON_MAP_get (js "default")
  | Some iconName =>
      if (N.of_nat (List.length iconName) <=? 3) && symbol_range_test iconName
      then VString iconName
      else
        let normalizedName := trim (toLowerCase iconName) in
        or_else (ICON_MAP_get normalizedName) (ICON_MAP_get (js "default"))
  end.

(** [createLinkCard(link, index)]: builds the detached card. *)
Definition createLinkCard (link : Link.t) (index : nat) : node :=
  let icon :=
    Element "div" "link-icon" [] []
            (innerHTML (toDOMString (getIcon (Link.icon link)))) in
  let title :=
    Element "div" "link-title" [] [] (textContent (Link.title link)) in
  let description :=
    if truthy (stringField (Link.description link))
    then [Element "div" "link-description" [] []
                  (textContent (toDOMString (stringField (Link.description link))))]
    else [] in
  let content := Element "div" "link-content" [] [] (title :: description) in
  let arrow := Element "div" "link-arrow" [] [] (innerHTML (js "→")) in
  Element "a" "link-card"
          [ ("href", Link.url link);
            ("target", js "_blank");
            ("rel", js "noopener noreferrer");
            ("aria-label", Link.title link) ]%string
          (if truthy (booleanField (Link.analytics link))
           then [TrackClick link] else [])
          [icon; content; arrow].

(** [link => link.active !== false] *)
Definition isActive (link : Link.t) : bool :=
  notStrictlyFalse (booleanField (Link.active link)).

(** [array.map((x, index) => f(x, index))], to name what [forEach] leaves. *)
Fixpoint mapiFrom {A B : Type} (f : A -> nat -> B) (l : list A) (index : nat)
  : list B :=
  match l with
  | [] => []
  | x :: l' => f x index :: mapiFrom f l' (S index)
  end.

(** [renderLinks(links)]; [None] is an absent [links] field. *)
Definition renderLinks (links : option (list Link.t)) : M unit :=
  match links with
  | None => linksContainer_set_innerHTML NO_LINKS
  | Some links =>
      if Nat.eqb (List.length links) 0
      then linksContainer_set_innerHTML NO_LINKS
      else
        linksContainer_set_innerHTML (js "") ;;
        let activeLinks := filter isActive links in
        forEach activeLinks (fun link index =>
          let linkCard := createLinkCard link index in
          linksContainer_appendChild linkCard)
  end.

(** [handleError(error)] *)
Definition handleError (error : error) : M unit :=
  console_error (js "Application error:") error ;;
  linksContainer_set_innerHTML ERROR_VIEW.

(** The [try] block of [init]. *)
Definition init_try : M unit :=
  data <- loadJSON CONFIG.linksFile ;;
  updateProfile (profile data) ;;
  renderLinks (links data).

(** [init()] *)
Definition init : M unit :=
  try_catch init_try (fun error => handleError error).


(** ** Facts about the icon table *)

Lemma jsstring_eqb_eq (s t : jsstring) : jsstring_eqb s t = true <-> s = t.
Proof.
  revert t; induction s as [|c s IH]; intros [|d t]; simpl.
  - tauto.
  - split; discriminate.
  - split; discriminate.
  - rewrite andb_true_iff, N.eqb_eq, IH. split.
    + intros [-> ->]. reflexivity.
    + intros H. injection H as -> ->. tauto.
Qed.

Lemma ICON_MAP_default : ICON_MAP_get (js "default") = VString (js "🔗").
Proof. reflexivity. Qed.

Lemma ownProperty_In (key v : jsstring) (o : list (jsstring * jsstring)) :
  ownProperty key o = Some v -> exists k, In (k, v) o.
Proof.
  induction o as [|[k w] o IH]; simpl; [discriminate|].
  destruct (jsstring_eqb k key).
  - intros [= ->]. eauto.
  - intros H. destruct (IH H) as [k' Hk']. eauto.
Qed.

(** Every glyph of the table is a non-empty string, so [||] keeps it. *)
Lemma ownProperty_ICON_MAP_truthy (key glyph : jsstring) :
  ownProperty key ICON_MAP = Some glyph -> truthy (VString glyph) = true.
Proof.
  intros H. apply ownProperty_In in H as [k Hk].
  assert (Hall : forallb (fun kv => truthy (VString (snd kv))) ICON_MAP = true)
    by reflexivity.
  rewrite forallb_forall in Hall. exact (Hall _ Hk).
Qed.

(** A property inherited from [Object.prototype] is never a string. *)
Lemma Object_prototype_get_cases (key : jsstring) :
  Object_prototype_get key = VUndefined
  \/ exists o, Object_prototype_get key = VNative o.
Proof.
  unfold Object_prototype_get.
  destruct (jsstring_eqb key (js "constructor")); [right; eauto|].
  destruct (jsstring_eqb key (js "__proto__")); [right; eauto|].
  destruct (find _ _); [right; eauto | now left].
Qed.

(** ** The icon resolver *)

Lemma getIcon_absent : getIcon None = VString (js "🔗").
Proof. reflexivity. Qed.

Lemma getIcon_empty : getIcon (Some []) = VString (js "🔗").
Proof. reflexivity. Qed.

(** The literal-glyph test of [getIcon], as a proposition. *)
Lemma symbol_range_test_true (s : jsstring) :
  symbol_range_test s = true <->
  exists c, In c (codePoints s) /\ 0x1F300 <= c <= 0x1F9FF.
Proof.
  unfold symbol_range_test, in_symbol_range. rewrite existsb_exists.
  split; intros (c & Hin & Hc); exists c; split; auto.
  - apply andb_true_iff in Hc as [H1 H2].
    apply N.leb_le in H1, H2. now split.
  - apply andb_true_iff. split; apply N.leb_le; apply Hc.
Qed.

(** A token that takes the lookup path: the table's glyph when the normalized
    name is an own key of [ICON_MAP]. *)
Lemma getIcon_known (iconName glyph : jsstring) :
  iconName <> [] ->
  (N.of_nat (List.length iconName) <=? 3) && symbol_range_test iconName = false ->
  ownProperty (trim (toLowerCase iconName)) ICON_MAP = Some glyph ->
  getIcon (Some iconName) = VString glyph.
Proof.
  intros Hne Hlit Hown. destruct iconName as [|u s]; [congruence|].
  unfold getIcon. rewrite Hlit. cbv zeta.
  unfold ICON_MAP_get at 1. rewrite Hown. unfold or_else.
  now rewrite (ownProperty_ICON_MAP_truthy _ _ Hown).
Qed.

(** The default glyph when the normalized name is neither an own key of
    [ICON_MAP] nor a property of [Object.prototype]. *)
Lemma getIcon_unknown (iconName : jsstring) :
  (N.of_nat (List.length iconName) <=? 3) && symbol_range_test iconName = false ->
  ownProperty (trim (toLowerCase iconName)) ICON_MAP = None ->
  Object_prototype_get (trim (toLowerCase iconName)) = VUndefined ->
  getIcon (Some iconName) = VString (js "🔗").
Proof.
  intros Hlit Hown Hproto. destruct iconName as [|u s]; [reflexivity|].
  unfold getIcon. rewrite Hlit. cbv zeta.
  unfold ICON_MAP_get at 1. rewrite Hown, Hproto. reflexivity.
Qed.

(** A normalized name that [Object.prototype] answers is returned as the
    built-in object found there. *)
Lemma getIcon_inherited (iconName : jsstring) (o : native) :
  iconName <> [] ->
  (N.of_nat (List.length iconName) <=? 3) && symbol_range_test iconName = false ->
  ownProperty (trim (toLowerCase iconName)) ICON_MAP = None ->
  Object_prototype_get (trim (toLowerCase iconName)) = VNative o ->
  getIcon (Some iconName) = VNative o.
Proof.
  intros Hne Hlit Hown Hproto. destruct iconName as [|u s]; [congruence|].
  unfold getIcon. rewrite Hlit. cbv zeta.
  unfold ICON_MAP_get at 1. rewrite Hown, Hproto. reflexivity.
Qed.

(** [getIcon] answers a string for every token, except that a normalized
    name which [Object.prototype] answers yields that built-in object. *)
Lemma getIcon_glyph_or_inherited (iconName : option jsstring) :
  (exists glyph, getIcon iconName = VString glyph)
  \/ (exists s o,
         iconName = Some s
         /\ Object_prototype_get (trim (toLowerCase s)) = VNative o
         /\ getIcon iconName = VNative o).
Proof.
  destruct iconName as [[|u s]|]; [left; eexists; reflexivity | | left; eexists; reflexivity].
  destruct ((N.of_nat (List.length (u :: s)) <=? 3) && symbol_range_test (u :: s))
    eqn:Hlit.
  - left. exists (u :: s). unfold getIcon. now rewrite Hlit.
  - destruct (ownProperty (trim (toLowerCase (u :: s))) ICON_MAP) as [glyph|] eqn:Hown.
    + left. exists glyph. apply getIcon_known; auto. discriminate.
    + destruct (Object_prototype_get_cases (trim (toLowerCase (u :: s))))
        as [Hp | [o Hp]].
      * left. eexists. apply getIcon_unknown; auto.
      * right. exists (u :: s), o. repeat split; auto.
        apply getIcon_inherited; auto. discriminate.
Qed.

(** C4. A present token of at most 3 code units that holds a code point of
    the range U+1F300..U+1F9FF is returned unchanged, with no normalization
    and no table lookup. *)
Theorem getIcon_literal_glyph (iconName : jsstring) :
  (List.length iconName <= 3)%nat ->
  (exists c, In c (codePoints iconName) /\ 0x1F300 <= c <= 0x1F9FF) ->
  getIcon (Some iconName) = VString iconName.
Proof.
  intros Hlen Hsym.
  destruct iconName as [|u s].
  - destruct Hsym as (c & [] & _).
  - apply symbol_range_test_true in Hsym.
    unfold getIcon. rewrite Hsym.
    replace (N.of_nat (List.length (u :: s)) <=? 3) with true; [reflexivity|].
    symmetry. apply N.leb_le. lia.
Qed.

(** ** The card builder *)

Lemma is_card_createLinkCard (link : Link.t) (index : nat) :
  is_card (createLinkCard link index) = true.
Proof. reflexivity. Qed.

Lemma filter_is_card_mapiFrom (l : list Link.t) (index : nat) :
  filter is_card (mapiFrom createLinkCard l index) = mapiFrom createLinkCard l index.
Proof.
  revert index; induction l as [|x l IH]; intros index; simpl; [reflexivity|].
  now rewrite IH.
Qed.

Lemma length_mapiFrom {A B : Type} (f : A -> nat -> B) (l : list A) (index : nat) :
  List.length (mapiFrom f l index) = List.length l.
Proof.
  revert index; induction l as [|x l IH]; intros index; simpl; [reflexivity|].
  now rewrite IH.
Qed.

(** The index handed to [createLinkCard] is not used. *)
Lemma mapiFrom_createLinkCard (l : list Link.t) (index : nat) :
  mapiFrom createLinkCard l index = map (fun link => createLinkCard link 0%nat) l.
Proof.
  revert index; induction l as [|x l IH]; intros index; simpl; [reflexivity|].
  now rewrite IH.
Qed.

(** Text and unparsed markup hold no element. *)
Lemma getElementsByClassName_innerHTML (cls : string) (html : jsstring) :
  flat_map (getElementsByClassName cls) (innerHTML html) = [].
Proof. destruct html; reflexivity. Qed.

Lemma getElementsByClassName_textContent (cls : string) (s : jsstring) :
  flat_map (getElementsByClassName cls) (textContent s) = [].
Proof. destruct s; reflexivity. Qed.

(** The description slots of a card: one, holding the description, when the
    description is a non-empty string, none otherwise. *)
Lemma description_slot_of_card (link : Link.t) (index : nat) :
  getElementsByClassName "link-description" (createLinkCard link index) =
  match Link.description link with
  | Some (u :: s) => [Element "div" "link-description" [] [] [Text (u :: s)]]
  | _ => []
  end.
Proof.
  unfold createLinkCard.
  cbn [getElementsByClassName flat_map String.eqb Ascii.eqb Bool.eqb app].
  rewrite !getElementsByClassName_innerHTML, getElementsByClassName_textContent.
  destruct (Link.description link) as [[|u s]|]; reflexivity.
Qed.

(** C9 (amended). A card has a description slot exactly when the record's
    description is present and not the empty string; the slot then holds the
    description verbatim as its only text, and a record whose description is
    absent or empty gets no description slot at all. *)
Theorem createLinkCard_description (link : Link.t) (index : nat) :
  ((exists slot,
       In slot (getElementsByClassName "link-description"
                                       (createLinkCard link index)))
   <-> (exists d, Link.description link = Some d /\ d <> []))
  /\ (forall d, Link.description link = Some d -> d <> [] ->
        getElementsByClassName "link-description" (createLinkCard link index)
        = [Element "div" "link-description" [] [] [Text d]])
  /\ (Link.description link = None \/ Link.description link = Some [] ->
        getElementsByClassName "link-description" (createLinkCard link index)
        = []).
Proof.
  rewrite description_slot_of_card.
  destruct (Link.description link) as [[|u s]|].
  - split; [split|split].
    + intros [slot []].
    + intros (d & [= <-] & Hd). congruence.
    + intros d [= <-] Hd. congruence.
    + reflexivity.
  - split; [split|split].
    + intros _. exists (u :: s). split; [reflexivity | discriminate].
    + intros _. eexists. now left.
    + intros d [= <-] _. reflexivity.
    + intros [H | H]; discriminate.
  - split; [split|split].
    + intros [slot []].
    + intros (d & H & _). discriminate.
    + intros d H. discriminate.
    + reflexivity.
Qed.

(** ** The link renderer *)

Lemma isActive_false (link : Link.t) :
  isActive link = false <-> Link.active link = Some false.
Proof.
  unfold isActive. destruct (Link.active link) as [[|]|]; simpl;
    split; congruence.
Qed.

Lemma isActive_true (link : Link.t) :
  isActive link = true <-> Link.active link <> Some false.
Proof.
  rewrite <- isActive_false. destruct (isActive link); split; congruence.
Qed.

(** Appending the cards of a list to an existing container. *)
Lemma forEachFrom_appendChild (l : list Link.t) :
  forall (index : nat) (d : page) (children : list node),
    linksContainer d = Some children ->
    forEachFrom (fun link index =>
                   let linkCard := createLinkCard link index in
                   linksContainer_appendChild linkCard) l index d
    = (set_linksContainer
         (Some (children ++ mapiFrom createLinkCard l index)) d, Normal tt).
Proof.
  induction l as [|x l IH]; intros index d children Hc; simpl.
  - unfold ret. rewrite app_nil_r, <- Hc. now destruct d.
  - unfold bind at 1. cbv zeta. unfold linksContainer_appendChild at 1.
    rewrite Hc.
    rewrite IH with (children := children ++ [createLinkCard x index])
      by reflexivity.
    rewrite <- app_assoc. reflexivity.
Qed.

(** What [renderLinks] leaves for a non-empty sequence. *)
Lemma renderLinks_nonempty (links : list Link.t) (d : page) (children : list node) :
  links <> [] ->
  linksContainer d = Some children ->
  renderLinks (Some links) d
  = (set_linksContainer
       (Some (mapiFrom createLinkCard (filter isActive links) 0)) d, Normal tt).
Proof.
  intros Hne Hc. unfold renderLinks.
  destruct links as [|x links]; [congruence|].
  cbn [List.length Nat.eqb]. unfold bind at 1.
  unfold linksContainer_set_innerHTML at 1. rewrite Hc. cbn [innerHTML js].
  unfold forEach.
  rewrite forEachFrom_appendChild with (children := []) by reflexivity.
  reflexivity.
Qed.

(** C1. For a non-empty sequence of link records the container ends up
    holding exactly the cards of the records whose [active] is not strictly
    [false] (an absent [active] counts as active), one card per such record
    and in the order of the input; their number is the number of those
    records. *)
Theorem renderLinks_cards (links : list Link.t) (d : page) (children : list node) :
  links <> [] ->
  linksContainer d = Some children ->
  let d' := exec (renderLinks (Some links)) d in
  let shown :=
    filter (fun link => notStrictlyFalse (booleanField (Link.active link))) links in
  result (renderLinks (Some links)) d = Normal tt
  /\ linksContainer d' = Some (mapiFrom createLinkCard shown 0)
  /\ cards d' = mapiFrom createLinkCard shown 0
  /\ List.length (cards d') = List.length shown
  /\ (forall link, In link shown <->
                   In link links /\ Link.active link <> Some false).
Proof.
  intros Hne Hc d' shown. subst d'. unfold exec, result.
  rewrite (renderLinks_nonempty links d children Hne Hc).
  change (filter isActive links) with shown. cbn [fst snd].
  assert (Hcards :
    cards (set_linksContainer (Some (mapiFrom createLinkCard shown 0)) d)
    = mapiFrom createLinkCard shown 0)
    by (unfold cards; cbn; apply filter_is_card_mapiFrom).
  split; [reflexivity|]. split; [reflexivity|]. split; [exact Hcards|].
  split; [rewrite Hcards; apply length_mapiFrom|].
  intros link. unfold shown. rewrite filter_In.
  fold (isActive link). now rewrite isActive_true.
Qed.

(** What [renderLinks] leaves for an absent or empty sequence. *)
Lemma renderLinks_none (links : option (list Link.t)) (d : page)
      (children : list node) :
  links = None \/ links = Some [] ->
  linksContainer d = Some children ->
  renderLinks links d = (set_linksContainer (Some [Markup NO_LINKS]) d, Normal tt).
Proof.
  intros [-> | ->] Hc; unfold renderLinks; cbn [List.length Nat.eqb];
    unfold linksContainer_set_innerHTML; rewrite Hc; reflexivity.
Qed.

(** C7. When [links] is absent or empty, the container ends up holding the
    "No links available" placeholder as its only child, and no card. *)
Theorem renderLinks_placeholder (links : option (list Link.t)) (d : page)
        (children : list node) :
  links = None \/ links = Some [] ->
  linksContainer d = Some children ->
  let d' := exec (renderLinks links) d in
  result (renderLinks links) d = Normal tt
  /\ linksContainer d' = Some [Markup NO_LINKS]
  /\ cards d' = [].
Proof.
  intros Hl Hc d'. subst d'. unfold exec, result.
  rewrite (renderLinks_none links d children Hl Hc). repeat split.
Qed.

Lemma filter_isActive_all_false (links : list Link.t) :
  (forall link, In link links -> Link.active link = Some false) ->
  filter isActive links = [].
Proof.
  induction links as [|x links IH]; intros H; simpl; [reflexivity|].
  replace (isActive x) with false
    by (symmetry; apply isActive_false, H; now left).
  apply IH. intros link Hin. apply H. now right.
Qed.

(** C10. For a non-empty sequence in which every record has [active]
    strictly [false], the container is cleared and left empty: no card and no
    placeholder, since emptiness is tested on the sequence as given, before
    the filter. *)
Theorem renderLinks_all_inactive (links : list Link.t) (d : page)
        (children : list node) :
  links <> [] ->
  (forall link, In link links -> Link.active link = Some false) ->
  linksContainer d = Some children ->
  let d' := exec (renderLinks (Some links)) d in
  result (renderLinks (Some links)) d = Normal tt
  /\ linksContainer d' = Some []
  /\ cards d' = []
  /\ ~ In (Markup NO_LINKS) (match linksContainer d' with
                             | Some now => now
                             | None => []
                             end).
Proof.
  intros Hne Hall Hc d'. subst d'. unfold exec, result.
  rewrite (renderLinks_nonempty links d children Hne Hc).
  rewrite (filter_isActive_all_false links Hall). cbn.
  repeat split. intros [].
Qed.

(** ** The profile renderer *)

(** [updateProfile] completes normally on every profile and page. *)
Lemma updateProfile_normal (p : option Profile.t) (d : page) :
  result (updateProfile p) d = Normal tt.
Proof.
  destruct p as [p|]; [|reflexivity].
  unfold result, updateProfile, when, bind, modify, ret.
  repeat match goal with
         | |- context [if ?c then _ else _] => destruct c
         end; reflexivity.
Qed.

(** Each slot of the page after [updateProfile], field by field. *)
Lemma updateProfile_slots (p : Profile.t) (d : page) :
  let d' := exec (updateProfile (Some p)) d in
  profileImage d'
  = (if truthy (stringField (Profile.image p))
     then match profileImage d with
          | Some _ =>
              Some (mkImage (toDOMString (stringField (Profile.image p)))
                            (toDOMString (or_else (stringField (Profile.name p))
                                                  (VString (js "Profile Picture")))))
          | None => None
          end
     else profileImage d)
  /\ profileName d'
     = (if truthy (stringField (Profile.name p))
        then match profileName d with
             | Some _ => Some (toDOMString (stringField (Profile.name p)))
             | None => None
             end
        else profileName d)
  /\ document_title d'
     = (if truthy (stringField (Profile.name p))
        then toDOMString (stringField (Profile.name p)) ++ js " | "
             ++ toDOMString (or_else (stringField (Profile.title p))
                                     (VString (js "Links")))
        else document_title d)
  /\ profileTitle d'
     = (if truthy (stringField (Profile.title p))
        then match profileTitle d with
             | Some _ => Some (toDOMString (stringField (Profile.title p)))
             | None => None
             end
        else profileTitle d)
  /\ profileBio d'
     = (if truthy (stringField (Profile.bio p))
        then match profileBio d with
             | Some _ => Some (toDOMString (stringField (Profile.bio p)))
             | None => None
             end
        else profileBio d)
  /\ linksContainer d' = linksContainer d
  /\ console d' = console d.
Proof.
  unfold exec, updateProfile, when, bind, modify, ret.
  destruct (truthy (stringField (Profile.image p)));
    destruct (truthy (stringField (Profile.name p)));
    destruct (truthy (stringField (Profile.title p)));
    destruct (truthy (stringField (Profile.bio p)));
    destruct d as [t [i|] [n|] [ti|] [b|] c l];
    cbn; repeat split; reflexivity.
Qed.

Lemma updateProfile_absent (d : page) : exec (updateProfile None) d = d.
Proof. reflexivity. Qed.

(** C5. Whatever fields a profile record has, a slot whose field is absent
    keeps its prior content: the image slot when [image] is absent, the name
    slot and the page heading when [name] is absent, the title slot when
    [title] is absent, the bio slot when [bio] is absent; the link container
    is never touched.  So only slots of present fields are set. *)
Theorem updateProfile_frame (p : Profile.t) (d : page) :
  let d' := exec (updateProfile (Some p)) d in
  (Profile.image p = None -> profileImage d' = profileImage d)
  /\ (Profile.name p = None ->
      profileName d' = profileName d /\ document_title d' = document_title d)
  /\ (Profile.title p = None -> profileTitle d' = profileTitle d)
  /\ (Profile.bio p = None -> profileBio d' = profileBio d)
  /\ linksContainer d' = linksContainer d.
Proof.
  destruct (updateProfile_slots p d) as (Hi & Hn & Hd & Ht & Hb & Hc & _).
  cbv zeta. rewrite Hi, Hn, Hd, Ht, Hb, Hc.
  split; [intros ->; reflexivity|].
  split; [intros ->; split; reflexivity|].
  split; [intros ->; reflexivity|].
  split; [intros ->; reflexivity|reflexivity].
Qed.

(** C6 (amended). When [name] is present and not the empty string, the page
    heading becomes the name, [" | "], and then the title when [title] is
    present and not the empty string, ["Links"] when [title] is absent or
    empty.  When [name] is absent or empty the page heading is unchanged. *)
Theorem updateProfile_heading (p : Profile.t) (d : page) :
  let d' := exec (updateProfile (Some p)) d in
  (forall n, Profile.name p = Some n -> n <> [] ->
     (forall t, Profile.title p = Some t -> t <> [] ->
        document_title d' = n ++ js " | " ++ t)
     /\ (Profile.title p = None \/ Profile.title p = Some [] ->
         document_title d' = n ++ js " | " ++ js "Links"))
  /\ (Profile.name p = None \/ Profile.name p = Some [] ->
      document_title d' = document_title d).
Proof.
  destruct (updateProfile_slots p d) as (_ & _ & Hd & _).
  cbv zeta. rewrite Hd. split.
  - intros n -> Hn. destruct n as [|u n]; [congruence|]. cbn. split.
    + intros t -> Ht. destruct t as [|v t]; [congruence|]. reflexivity.
    + intros [-> | ->]; reflexivity.
  - intros [-> | ->]; reflexivity.
Qed.

(** ** Loading and the error presenter *)

(** [loadJSON] either returns the parsed document of a successful response
    and leaves the page as it was, or logs the failure and throws it. *)
Lemma loadJSON_cases (filename : jsstring) (d : page) :
  (exists r data,
      fetch filename = Some r /\ ok r = true /\ json r = Some data
      /\ loadJSON filename d = (d, Normal data))
  \/ (exists e,
         loadJSON filename d
         = (set_console (console d ++ [ConsoleError (js "Error loading JSON:") e]) d,
            Throw e)).
Proof.
  unfold loadJSON, try_catch.
  destruct (fetch filename) as [r|] eqn:Hf.
  - destruct (ok r) eqn:Hok; cbn [negb].
    + destruct (json r) as [data|] eqn:Hj.
      * left. exists r, data. auto.
      * right. exists ParseFailure. reflexivity.
    + right. eexists. reflexivity.
  - right. exists NetworkError. reflexivity.
Qed.

(** A response that is not [ok] makes [loadJSON] throw a [LoadFailure] that
    names the resource. *)
Lemma loadJSON_not_ok (filename : jsstring) (d : page) (r : response) :
  fetch filename = Some r -> ok r = false ->
  loadJSON filename d
  = (set_console
       (console d ++ [ConsoleError (js "Error loading JSON:")
                                   (LoadFailure (js "Failed to load " ++ filename))]) d,
     Throw (LoadFailure (js "Failed to load " ++ filename))).
Proof.
  intros Hf Hok. unfold loadJSON, try_catch. rewrite Hf, Hok. reflexivity.
Qed.

Lemma renderLinks_normal (links : option (list Link.t)) (d : page)
      (children : list node) :
  linksContainer d = Some children ->
  result (renderLinks links) d = Normal tt.
Proof.
  intros Hc. unfold result.
  destruct links as [[|x links]|].
  - rewrite (renderLinks_none (Some []) d children); auto.
  - rewrite (renderLinks_nonempty (x :: links) d children); auto. discriminate.
  - rewrite (renderLinks_none None d children); auto.
Qed.

(** On a page that has the container, the [try] block of [init] can only fail
    in the loader, and then the page is the one [init] started from, with the
    loader's log entry added. *)
Lemma init_try_throw (d d1 : page) (children : list node) (e : error) :
  linksContainer d = Some children ->
  init_try d = (d1, Throw e) ->
  d1 = set_console (console d ++ [ConsoleError (js "Error loading JSON:") e]) d.
Proof.
  intros Hc. unfold init_try. unfold bind at 1.
  destruct (loadJSON_cases CONFIG.linksFile d)
    as [(r & data & _ & _ & _ & ->) | (e' & ->)].
  - unfold bind at 1.
    pose proof (updateProfile_normal (profile data) d) as Hn.
    assert (Hk : linksContainer (exec (updateProfile (profile data)) d)
                 = Some children).
    { destruct (profile data) as [p|]; [|exact Hc].
      destruct (updateProfile_slots p d) as (_ & _ & _ & _ & _ & Hk & _).
      cbv zeta in Hk. now rewrite Hk. }
    unfold result, exec in Hn, Hk.
    destruct (updateProfile (profile data) d) as [d' c]. cbn in Hn, Hk. subst c.
    pose proof (renderLinks_normal (links data) d' children Hk) as Hr.
    unfold result in Hr. destruct (renderLinks (links data) d') as [d'' c].
    cbn in Hr. subst c. discriminate.
  - intros [= <- <-]. reflexivity.
Qed.

(** [handleError] on a page that has the container. *)
Lemma handleError_page (e : error) (d : page) (children : list node) :
  linksContainer d = Some children ->
  handleError e d
  = (set_linksContainer (Some [Markup ERROR_VIEW])
       (set_console (console d ++ [ConsoleError (js "Application error:") e]) d),
     Normal tt).
Proof.
  intros Hc. unfold handleError, bind, console_error, modify,
    linksContainer_set_innerHTML.
  cbn [linksContainer set_console]. rewrite Hc. reflexivity.
Qed.

(** [handleError] writes to the console and to the link container only,
    whether or not the page has the container. *)
Lemma handleError_frame (e : error) (d : page) :
  let d' := exec (handleError e) d in
  document_title d' = document_title d
  /\ profileImage d' = profileImage d
  /\ profileName d' = profileName d
  /\ profileTitle d' = profileTitle d
  /\ profileBio d' = profileBio d
  /\ console d' = console d ++ [ConsoleError (js "Application error:") e].
Proof.
  cbv zeta. unfold exec, handleError, bind, console_error, modify,
    linksContainer_set_innerHTML.
  cbn [linksContainer set_console]. destruct (linksContainer d); repeat split.
Qed.

(** C8. Whatever fails inside a [try] block guarded by [handleError], and at
    whatever point (so also a failure a renderer raises after slots were
    written or cards appended): the page heading and the four profile slots
    end as they were when the failure was thrown, with no rollback, and if
    the page then has the link container the whole completes normally with
    the container holding the static error view as its only child and no
    card.  [init] is such a block around [init_try], so this holds of every
    failure of the loader, the profile renderer and the link renderer; and
    after a fetch whose response is not [ok], the heading and the profile
    slots are those [init] started from. *)
Theorem init_failure (d : page) :
  (forall (try_block : M unit) (d1 : page) (e : error),
      try_block d = (d1, Throw e) ->
      let guarded := try_catch try_block (fun error => handleError error) in
      let d2 := exec guarded d in
      document_title d2 = document_title d1
      /\ profileImage d2 = profileImage d1
      /\ profileName d2 = profileName d1
      /\ profileTitle d2 = profileTitle d1
      /\ profileBio d2 = profileBio d1
      /\ (forall children,
            linksContainer d1 = Some children ->
            result guarded d = Normal tt
            /\ linksContainer d2 = Some [Markup ERROR_VIEW]
            /\ cards d2 = []))
  /\ (forall (d1 : page) (e : error),
         init_try d = (d1, Throw e) ->
         let d2 := exec init d in
         document_title d2 = document_title d1
         /\ profileImage d2 = profileImage d1
         /\ profileName d2 = profileName d1
         /\ profileTitle d2 = profileTitle d1
         /\ profileBio d2 = profileBio d1
         /\ (forall children,
               linksContainer d1 = Some children ->
               result init d = Normal tt
               /\ linksContainer d2 = Some [Markup ERROR_VIEW]
               /\ cards d2 = []))
  /\ (forall r,
         fetch CONFIG.linksFile = Some r -> ok r = false ->
         let d2 := exec init d in
         document_title d2 = document_title d
         /\ profileImage d2 = profileImage d
         /\ profileName d2 = profileName d
         /\ profileTitle d2 = profileTitle d
         /\ profileBio d2 = profileBio d
         /\ (forall children,
               linksContainer d = Some children ->
               result init d = Normal tt
               /\ linksContainer d2 = Some [Markup ERROR_VIEW]
               /\ cards d2 = [])).
Proof.
  assert (HA : forall (try_block : M unit) (d1 : page) (e : error),
      try_block d = (d1, Throw e) ->
      let guarded := try_catch try_block (fun error => handleError error) in
      let d2 := exec guarded d in
      document_title d2 = document_title d1
      /\ profileImage d2 = profileImage d1
      /\ profileName d2 = profileName d1
      /\ profileTitle d2 = profileTitle d1
      /\ profileBio d2 = profileBio d1
      /\ (forall children,
            linksContainer d1 = Some children ->
            result guarded d = Normal tt
            /\ linksContainer d2 = Some [Markup ERROR_VIEW]
            /\ cards d2 = [])).
  { intros try_block d1 e Htry guarded d2.
    assert (Hg : guarded d = handleError e d1)
      by (unfold guarded, try_catch; now rewrite Htry).
    unfold d2, exec, result. rewrite Hg.
    destruct (handleError_frame e d1) as (Ht & Hi & Hn & Hti & Hb & _).
    cbv zeta in Ht, Hi, Hn, Hti, Hb. unfold exec in Ht, Hi, Hn, Hti, Hb.
    repeat (split; [assumption|]).
    intros children Hc1. rewrite (handleError_page e d1 children Hc1).
    repeat split. }
  split; [exact HA|]. split.
  - intros d1 e Htry. exact (HA init_try d1 e Htry).
  - intros r Hf Hok.
    assert (Htry : init_try d
      = (set_console
           (console d ++ [ConsoleError (js "Error loading JSON:")
                            (LoadFailure (js "Failed to load " ++ CONFIG.linksFile))]) d,
         Throw (LoadFailure (js "Failed to load " ++ CONFIG.linksFile)))).
    { unfold init_try, bind. rewrite (loadJSON_not_ok _ d r Hf Hok). reflexivity. }
    exact (HA init_try _ _ Htry).
Qed.

(** ** Further properties of the icon resolver *)

Lemma truthy_toDOMString (v : value) : truthy v = true -> toDOMString v <> [].
Proof.
  destruct v as [|[|]|[|u s]|[| |name]]; cbn; intros H; try discriminate.
Qed.

Lemma getIcon_truthy (iconName : option jsstring) : truthy (getIcon iconName) = true.
Proof.
  destruct iconName as [[|u s]|]; try reflexivity.
  unfold getIcon.
  destruct ((N.of_nat (List.length (u :: s)) <=? 3) && symbol_range_test (u :: s));
    [reflexivity|].
  cbv zeta. unfold or_else.
  destruct (truthy (ICON_MAP_get (trim (toLowerCase (u :: s))))) eqn:Ht;
    [exact Ht | reflexivity].
Qed.

(** X1. Two non-empty tokens that are not literal glyphs and have the same
    normalized name (lower-cased, then trimmed) resolve to the same value:
    the lookup sees neither letter case nor surrounding white space. *)
Theorem getIcon_same_normalized_name (s t : jsstring) :
  s <> [] -> t <> [] ->
  (N.of_nat (List.length s) <=? 3) && symbol_range_test s = false ->
  (N.of_nat (List.length t) <=? 3) && symbol_range_test t = false ->
  trim (toLowerCase s) = trim (toLowerCase t) ->
  getIcon (Some s) = getIcon (Some t).
Proof.
  intros Hs Ht Ls Lt Hn.
  destruct s as [|a s]; [congruence|]. destruct t as [|b t]; [congruence|].
  unfold getIcon. rewrite Ls, Lt. cbv zeta. now rewrite Hn.
Qed.

(** X2. Every card has exactly one icon slot, and the slot holds exactly one
    markup fragment, which is never the empty string: whatever the icon token
    is, something is written into the slot. *)
Theorem createLinkCard_icon_slot (link : Link.t) (index : nat) :
  toDOMString (getIcon (Link.icon link)) <> []
  /\ getElementsByClassName "link-icon" (createLinkCard link index)
     = [Element "div" "link-icon" [] []
                [Markup (toDOMString (getIcon (Link.icon link)))]].
Proof.
  assert (Hne : toDOMString (getIcon (Link.icon link)) <> [])
    by apply truthy_toDOMString, getIcon_truthy.
  split; [exact Hne|].
  unfold createLinkCard.
  destruct (toDOMString (getIcon (Link.icon link))) as [|u h]; [congruence|].
  destruct (Link.title link) as [|v t];
    destruct (Link.description link) as [[|w e]|]; reflexivity.
Qed.

Lemma jsstring_eqb_true (s t : jsstring) : jsstring_eqb s t = true -> s = t.
Proof using Type.
  revert t; induction s as [|c s IH]; intros [|d t]; simpl; try discriminate.
  - reflexivity.
  - intros H. apply andb_true_iff in H as [Hc Hs].
    apply N.eqb_eq in Hc. apply IH in Hs. now subst.
Qed.

(** X3. Every name of the icon table resolves to the glyph written beside it,
    provided lower-casing leaves the name as it is: no entry is shadowed by
    another, taken for a literal glyph or changed by trimming. *)
Theorem getIcon_table_names (key glyph : jsstring) :
  In (key, glyph) ICON_MAP ->
  toLowerCase key = key ->
  getIcon (Some key) = VString glyph.
Proof using toLowerCase.
  intros Hin Hlow.
  assert (Hall :
    forallb (fun kv =>
               match fst kv with [] => false | _ :: _ => true end
               && negb ((N.of_nat (List.length (fst kv)) <=? 3)
                        && symbol_range_test (fst kv))
               && match ownProperty (trim (fst kv)) ICON_MAP with
                  | Some g => jsstring_eqb g (snd kv)
                  | None => false
                  end) ICON_MAP = true) by reflexivity.
  rewrite forallb_forall in Hall. specialize (Hall _ Hin). cbn [fst snd] in Hall.
  apply andb_true_iff in Hall as [Hall Hown].
  apply andb_true_iff in Hall as [Hne Hlit].
  apply negb_true_iff in Hlit.
  destruct (ownProperty (trim key) ICON_MAP) as [g|] eqn:Hg; [|discriminate].
  apply jsstring_eqb_true in Hown. subst g.
  apply getIcon_known.
  - destruct key; [discriminate | discriminate].
  - exact Hlit.
  - now rewrite Hlow.
Qed.

(** ** Further properties of the link renderer *)

(** On a page that has the container, [renderLinks] completes normally and
    rewrites the container to a content fixed by [links] alone. *)
Lemma renderLinks_content (links : option (list Link.t)) :
  exists content,
    forall d children,
      linksContainer d = Some children ->
      renderLinks links d = (set_linksContainer (Some content) d, Normal tt).
Proof.
  destruct links as [[|x links]|].
  - exists [Markup NO_LINKS]. intros d c Hc. apply (renderLinks_none _ d c); auto.
  - exists (mapiFrom createLinkCard (filter isActive (x :: links)) 0).
    intros d c Hc. apply (renderLinks_nonempty _ d c); [discriminate | exact Hc].
  - exists [Markup NO_LINKS]. intros d c Hc. apply (renderLinks_none _ d c); auto.
Qed.

(** Without the container the first assignment of [renderLinks] throws. *)
Lemma renderLinks_throws (links : option (list Link.t)) (d : page) :
  linksContainer d = None ->
  exists message, renderLinks links d = (d, Throw (TypeError message)).
Proof.
  intros Hc. eexists.
  destruct links as [[|x links]|]; unfold renderLinks; cbn [List.length Nat.eqb];
    try unfold bind; unfold linksContainer_set_innerHTML; rewrite Hc; reflexivity.
Qed.

(** X6. On a page without the link container [renderLinks] throws a
    [TypeError] whatever [links] is, and leaves the page exactly as it was. *)
Theorem renderLinks_no_container (links : option (list Link.t)) (d : page) :
  linksContainer d = None ->
  exists message, renderLinks links d = (d, Throw (TypeError message)).
Proof.
  intros Hc. eexists.
  destruct links as [[|x links]|]; unfold renderLinks; cbn [List.length Nat.eqb];
    try unfold bind; unfold linksContainer_set_innerHTML; rewrite Hc; reflexivity.
Qed.

(** X4. [renderLinks] replaces whatever the container held: the page it
    leaves does not depend on the container's prior children, so rendering
    the same links a second time changes nothing and never duplicates a
    card. *)
Theorem renderLinks_replaces_content (links : option (list Link.t)) (d : page)
        (children : list node) :
  linksContainer d = Some children ->
  (forall prior,
      exec (renderLinks links) (set_linksContainer (Some prior) d)
      = exec (renderLinks links) d)
  /\ exec (renderLinks links) (exec (renderLinks links) d)
     = exec (renderLinks links) d.
Proof.
  intros Hc. destruct (renderLinks_content links) as [content H].
  unfold exec. split.
  - intros prior.
    rewrite (H (set_linksContainer (Some prior) d) prior eq_refl).
    rewrite (H d children Hc). reflexivity.
  - rewrite (H d children Hc). cbn [fst].
    rewrite (H (set_linksContainer (Some content) d) content eq_refl).
    reflexivity.
Qed.

(** X5. [renderLinks] writes to the link container only: the page heading,
    the four profile slots and the console are as before, whether it
    completes or throws. *)
Theorem renderLinks_frame (links : option (list Link.t)) (d : page) :
  let d' := exec (renderLinks links) d in
  document_title d' = document_title d
  /\ profileImage d' = profileImage d
  /\ profileName d' = profileName d
  /\ profileTitle d' = profileTitle d
  /\ profileBio d' = profileBio d
  /\ console d' = console d.
Proof.
  cbv zeta. unfold exec.
  destruct (linksContainer d) as [children|] eqn:Hc.
  - destruct (renderLinks_content links) as [content H].
    rewrite (H d children Hc). repeat split.
  - destruct (renderLinks_throws links d Hc) as [message ->].
    repeat split.
Qed.

Lemma cards_renderLinks (links : list Link.t) (d : page) :
  cards (exec (renderLinks (Some links)) d)
  = match linksContainer d with
    | Some _ => map (fun link => createLinkCard link 0%nat) (filter isActive links)
    | None => []
    end.
Proof.
  unfold exec. destruct (linksContainer d) as [children|] eqn:Hc.
  - destruct links as [|x links].
    + rewrite (renderLinks_none (Some []) d children); auto.
    + rewrite (renderLinks_nonempty (x :: links) d children); auto; [|discriminate].
      unfold cards. cbn [fst linksContainer set_linksContainer].
      rewrite filter_is_card_mapiFrom. apply mapiFrom_createLinkCard.
  - destruct (renderLinks_throws (Some links) d Hc) as [message ->].
    unfold cards. cbn [fst]. now rewrite Hc.
Qed.

(** X7. The cards rendered for a concatenation of two sequences are the cards
    of the first followed by the cards of the second: a card depends on its
    own record only, not on its position or on the other records. *)
Theorem renderLinks_cards_app (l1 l2 : list Link.t) (d : page) :
  cards (exec (renderLinks (Some (l1 ++ l2))) d)
  = cards (exec (renderLinks (Some l1)) d)
    ++ cards (exec (renderLinks (Some l2)) d).
Proof.
  rewrite !cards_renderLinks.
  destruct (linksContainer d); [|reflexivity].
  now rewrite filter_app, map_app.
Qed.

(** ** Click tracking *)

(** X17. A click on the card of a record whose [analytics] is [true] logs that
    record's title and url once and, when a global [gtag] exists, hands it
    one event with category ["Link"], the title as label and the url as
    value; when no [gtag] exists none is called or created.  A click on the
    card of any other record reports nothing. *)
Theorem click_card_tracks (link : Link.t) (index : nat) (s : tracking) :
  let s' := click (createLinkCard link index) s in
  (Link.analytics link = Some true ->
   console_log s'
   = console_log s ++ [(js "Link clicked:", Link.title link, Link.url link)]
   /\ gtag s'
      = match gtag s with
        | Some calls =>
            Some (calls ++ [Gtag.mk (js "event") (js "click") (js "Link")
                                    (Link.title link) (Link.url link)])
        | None => None
        end)
  /\ (Link.analytics link <> Some true -> s' = s).
Proof.
  cbv zeta. unfold createLinkCard, click.
  destruct (Link.analytics link) as [[|]|]; cbn; split.
  - intros _. unfold trackClick. cbn. destruct (gtag s); split; reflexivity.
  - congruence.
  - discriminate.
  - reflexivity.
  - discriminate.
  - reflexivity.
Qed.

(** ** Further properties of the profile renderer *)

(** X8. Applying the same profile twice leaves the page that applying it once
    leaves. *)
Theorem updateProfile_idempotent (p : option Profile.t) (d : page) :
  exec (updateProfile p) (exec (updateProfile p) d) = exec (updateProfile p) d.
Proof.
  destruct p as [p|]; [|reflexivity].
  unfold exec, updateProfile, when, bind, modify, ret.
  destruct (truthy (stringField (Profile.image p)));
    destruct (truthy (stringField (Profile.name p)));
    destruct (truthy (stringField (Profile.title p)));
    destruct (truthy (stringField (Profile.bio p)));
    destruct d as [t [i|] [n|] [ti|] [b|] c l];
    reflexivity.
Qed.

(** X9. A name, title or bio that is present and not the empty string is
    written verbatim into its slot when the page has that slot, whatever the
    slot held before. *)
Theorem updateProfile_text_slots (p : Profile.t) (d : page) :
  let d' := exec (updateProfile (Some p)) d in
  (forall v old, Profile.name p = Some v -> v <> [] -> profileName d = Some old ->
                 profileName d' = Some v)
  /\ (forall v old, Profile.title p = Some v -> v <> [] -> profileTitle d = Some old ->
                    profileTitle d' = Some v)
  /\ (forall v old, Profile.bio p = Some v -> v <> [] -> profileBio d = Some old ->
                    profileBio d' = Some v).
Proof.
  destruct (updateProfile_slots p d) as (_ & Hn & _ & Ht & Hb & _).
  cbv zeta. rewrite Hn, Ht, Hb.
  repeat split; intros v old -> Hv ->; destruct v; (congruence || reflexivity).
Qed.

(** X10. An image that is present and not the empty string becomes the [src]
    of the image slot when the page has one, and the slot's [alt] becomes the
    name when the name is present and not empty, ["Profile Picture"]
    otherwise; the prior [src] and [alt] are both overwritten. *)
Theorem updateProfile_image_slot (p : Profile.t) (d : page) (v : jsstring)
        (el : image_element) :
  Profile.image p = Some v -> v <> [] -> profileImage d = Some el ->
  let d' := exec (updateProfile (Some p)) d in
  (forall n, Profile.name p = Some n -> n <> [] ->
             profileImage d' = Some (mkImage v n))
  /\ (Profile.name p = None \/ Profile.name p = Some [] ->
      profileImage d' = Some (mkImage v (js "Profile Picture"))).
Proof.
  intros Hi Hv Hel.
  destruct (updateProfile_slots p d) as (H & _).
  cbv zeta. rewrite H, Hi, Hel.
  destruct v as [|u v]; [congruence|]. cbn [stringField truthy toDOMString].
  split.
  - intros n -> Hn. destruct n; [congruence | reflexivity].
  - intros [-> | ->]; reflexivity.
Qed.

(** X11. [updateProfile] completes normally on every profile and page, and
    neither creates nor removes a slot: each of the four profile slots exists
    afterwards exactly when it existed before, so a missing slot is skipped
    rather than an error. *)
Theorem updateProfile_slot_presence (p : option Profile.t) (d : page) :
  let d' := exec (updateProfile p) d in
  result (updateProfile p) d = Normal tt
  /\ (profileImage d' = None <-> profileImage d = None)
  /\ (profileName d' = None <-> profileName d = None)
  /\ (profileTitle d' = None <-> profileTitle d = None)
  /\ (profileBio d' = None <-> profileBio d = None).
Proof.
  cbv zeta. split; [apply updateProfile_normal|].
  destruct p as [p|]; [|cbn; tauto].
  destruct (updateProfile_slots p d) as (Hi & Hn & _ & Ht & Hb & _).
  cbv zeta in *. rewrite Hi, Hn, Ht, Hb.
  destruct (truthy (stringField (Profile.image p)));
    destruct (truthy (stringField (Profile.name p)));
    destruct (truthy (stringField (Profile.title p)));
    destruct (truthy (stringField (Profile.bio p)));
    destruct (profileImage d); destruct (profileName d);
    destruct (profileTitle d); destruct (profileBio d);
    repeat split; congruence.
Qed.

(** ** Further properties of the loader *)

(** X12. [loadJSON] returns a document exactly when the request was answered
    by an [ok] response whose body parses to that document, and it then
    leaves the page, console included, as it was. *)
Theorem loadJSON_success (filename : jsstring) (d : page) (data : LinkDocument) :
  (result (loadJSON filename) d = Normal data
   <-> exists r, fetch filename = Some r /\ ok r = true /\ json r = Some data)
  /\ (result (loadJSON filename) d = Normal data ->
      exec (loadJSON filename) d = d).
Proof.
  unfold result, exec, loadJSON, try_catch.
  destruct (fetch filename) as [r|] eqn:Hf.
  - destruct (ok r) eqn:Hok; cbn [negb].
    + destruct (json r) as [data'|] eqn:Hj; cbn.
      * split; [split|reflexivity].
        -- intros [= ->]. exists r. auto.
        -- intros (r' & [= <-] & _ & Hd). congruence.
      * split; [split|discriminate].
        -- discriminate.
        -- intros (r' & [= <-] & _ & Hd). congruence.
    + cbn. split; [split|discriminate].
      * discriminate.
      * intros (r' & [= <-] & Hd & _). congruence.
  - cbn. split; [split|discriminate].
    + discriminate.
    + intros (r' & Hd & _). discriminate.
Qed.

(** X13. When [loadJSON] fails it appends exactly one entry to the console,
    carrying the very error it throws, and changes nothing else; the error is
    a [NetworkError] when the request was rejected, a [LoadFailure] naming
    the file when the response is not [ok] (its body is then not looked at),
    and a [ParseFailure] when an [ok] response has an invalid body. *)
Theorem loadJSON_failure (filename : jsstring) (d : page) (e : error) :
  result (loadJSON filename) d = Throw e ->
  exec (loadJSON filename) d
  = set_console (console d ++ [ConsoleError (js "Error loading JSON:") e]) d
  /\ ((e = NetworkError /\ fetch filename = None)
      \/ (e = LoadFailure (js "Failed to load " ++ filename)
          /\ exists r, fetch filename = Some r /\ ok r = false)
      \/ (e = ParseFailure
          /\ exists r, fetch filename = Some r /\ ok r = true /\ json r = None)).
Proof.
  unfold result, exec, loadJSON, try_catch.
  destruct (fetch filename) as [r|].
  - destruct (ok r) eqn:Hok; cbn [negb].
    + destruct (json r) as [data|] eqn:Hj; cbn.
      * discriminate.
      * intros [= <-]. split; [reflexivity|]. right. right. eauto.
    + cbn. intros [= <-]. split; [reflexivity|]. right. left. eauto.
  - cbn. intros [= <-]. split; [reflexivity|]. left. auto.
Qed.

(** ** Further properties of the start-up sequence *)

Lemma NO_LINKS_neq_ERROR_VIEW : NO_LINKS <> ERROR_VIEW.
Proof. vm_compute. discriminate. Qed.

Lemma updateProfile_keeps_container (p : option Profile.t) (d : page) :
  linksContainer (exec (updateProfile p) d) = linksContainer d
  /\ console (exec (updateProfile p) d) = console d.
Proof.
  destruct p as [p|]; [|split; reflexivity].
  destruct (updateProfile_slots p d) as (_ & _ & _ & _ & _ & Hc & Hl).
  split; assumption.
Qed.

(** The [try] block of [init] after a successful load: the two renderers in
    sequence, stopping at what [renderLinks] returns. *)
Lemma init_try_loaded (d : page) (r : response) (data : LinkDocument) :
  fetch CONFIG.linksFile = Some r -> ok r = true -> json r = Some data ->
  init_try d
  = renderLinks (links data) (exec (updateProfile (profile data)) d).
Proof.
  intros Hf Hok Hj. unfold init_try. unfold bind at 1.
  unfold loadJSON, try_catch. rewrite Hf, Hok, Hj. cbn [negb ret].
  unfold bind. pose proof (updateProfile_normal (profile data) d) as Hn.
  unfold result, exec in *.
  destruct (updateProfile (profile data) d) as [d1 c]. cbn in Hn. subst c.
  reflexivity.
Qed.

(** [renderLinks] leaves the console as it was. *)
Lemma renderLinks_keeps_console (links : option (list Link.t)) (d : page) :
  console (exec (renderLinks links) d) = console d.
Proof.
  unfold exec. destruct (linksContainer d) as [children|] eqn:Hc.
  - destruct (renderLinks_content links) as [content H].
    now rewrite (H d children Hc).
  - now destruct (renderLinks_throws links d Hc) as [message ->].
Qed.

(** [init] after a successful load in which [renderLinks] completes. *)
Lemma init_after_load (d : page) (r : response) (data : LinkDocument) :
  fetch CONFIG.linksFile = Some r -> ok r = true -> json r = Some data ->
  result (renderLinks (links data)) (exec (updateProfile (profile data)) d)
  = Normal tt ->
  init d
  = (exec (renderLinks (links data)) (exec (updateProfile (profile data)) d),
     Normal tt).
Proof.
  intros Hf Hok Hj Hr.
  unfold init, try_catch. rewrite (init_try_loaded d r data Hf Hok Hj).
  unfold result, exec in *.
  destruct (renderLinks (links data) (fst (updateProfile (profile data) d)))
    as [d2 c]. cbn in Hr. subst c. reflexivity.
Qed.

(** X14. After a successful load, if [updateProfile] and [renderLinks] then
    both complete normally, [init] completes normally and leaves exactly the
    page [renderLinks] leaves after [updateProfile]; nothing is written to
    the console and the container does not show the error view. *)
Theorem init_success (d : page) (r : response) (data : LinkDocument) :
  fetch CONFIG.linksFile = Some r -> ok r = true -> json r = Some data ->
  result (updateProfile (profile data)) d = Normal tt ->
  result (renderLinks (links data)) (exec (updateProfile (profile data)) d)
  = Normal tt ->
  init d
  = (exec (renderLinks (links data)) (exec (updateProfile (profile data)) d),
     Normal tt)
  /\ console (exec init d) = console d
  /\ linksContainer (exec init d) <> Some [Markup ERROR_VIEW].
Proof.
  intros Hf Hok Hj _ Hr.
  pose proof (init_after_load d r data Hf Hok Hj Hr) as Hinit.
  split; [exact Hinit|].
  assert (Hx : exec init d
               = exec (renderLinks (links data))
                      (exec (updateProfile (profile data)) d))
    by (unfold exec at 1; now rewrite Hinit).
  rewrite Hx. split.
  - rewrite renderLinks_keeps_console.
    now destruct (updateProfile_keeps_container (profile data) d) as [_ ->].
  - destruct (linksContainer (exec (updateProfile (profile data)) d))
      as [children|] eqn:Hk.
    + unfold exec at 1. destruct (links data) as [[|x l]|].
      * rewrite (renderLinks_none (Some []) _ children); auto.
        cbn [fst linksContainer set_linksContainer]. intros H.
        apply NO_LINKS_neq_ERROR_VIEW.
        exact (f_equal (fun c => match c with
                                 | Some [Markup html] => html
                                 | _ => []
                                 end) H).
      * rewrite (renderLinks_nonempty (x :: l) _ children); auto; [|discriminate].
        cbn [fst linksContainer set_linksContainer].
        destruct (filter isActive (x :: l)); cbn; discriminate.
      * rewrite (renderLinks_none None _ children); auto.
        cbn [fst linksContainer set_linksContainer]. intros H.
        apply NO_LINKS_neq_ERROR_VIEW.
        exact (f_equal (fun c => match c with
                                 | Some [Markup html] => html
                                 | _ => []
                                 end) H).
    + destruct (renderLinks_throws (links data) _ Hk) as [message Ht].
      unfold result in Hr. rewrite Ht in Hr. discriminate.
Qed.

(** [handleError] on a page without the container: the error is logged and
    the assignment to the container throws. *)
Lemma handleError_no_container (e : error) (d : page) :
  linksContainer d = None ->
  exists message,
    handleError e d
    = (set_console (console d ++ [ConsoleError (js "Application error:") e]) d,
       Throw (TypeError message)).
Proof.
  intros Hc. eexists. unfold handleError, bind, console_error, modify,
    linksContainer_set_innerHTML.
  cbn [linksContainer set_console]. rewrite Hc. reflexivity.
Qed.

(** X15. On a page without the link container [init] does not complete
    normally, whatever the host answers: the [try] block fails (at the latest
    in [renderLinks]) and the error presenter then fails too, so [init] ends
    in a [TypeError] and no error view is shown. *)
Theorem init_no_container (d : page) :
  linksContainer d = None ->
  (exists message, result init d = Throw (TypeError message))
  /\ linksContainer (exec init d) = None.
Proof.
  intros Hc.
  assert (Htry : exists d1 e, init_try d = (d1, Throw e) /\ linksContainer d1 = None).
  { destruct (loadJSON_cases CONFIG.linksFile d)
      as [(r & data & Hf & Hok & Hj & _) | (e & He)].
    - rewrite (init_try_loaded d r data Hf Hok Hj).
      destruct (updateProfile_keeps_container (profile data) d) as [Hk _].
      rewrite Hc in Hk.
      destruct (renderLinks_throws (links data) _ Hk) as [message ->].
      eauto.
    - exists (set_console (console d ++ [ConsoleError (js "Error loading JSON:") e]) d), e.
      split; [|exact Hc]. unfold init_try, bind. now rewrite He. }
  destruct Htry as (d1 & e & Htry & Hc1).
  destruct (handleError_no_container e d1 Hc1) as [message Hh].
  unfold result, exec, init, try_catch. rewrite Htry, Hh. cbn [fst snd].
  split; [eauto | exact Hc1].
Qed.

(** X16. On a page that has the link container [init] always completes
    normally, and the container then holds one of three things: the error
    view alone, the "No links available" placeholder alone, or link cards
    only. *)
Theorem init_outcomes (d : page) (children : list node) :
  linksContainer d = Some children ->
  result init d = Normal tt
  /\ (linksContainer (exec init d) = Some [Markup ERROR_VIEW]
      \/ linksContainer (exec init d) = Some [Markup NO_LINKS]
      \/ exists shown,
           linksContainer (exec init d)
           = Some (map (fun link => createLinkCard link 0%nat) shown)).
Proof.
  intros Hc.
  destruct (loadJSON_cases CONFIG.linksFile d)
    as [(r & data & Hf & Hok & Hj & _) | (e & He)].
  - destruct (updateProfile_keeps_container (profile data) d) as [Hk0 _].
    rewrite Hc in Hk0.
    pose proof (init_after_load d r data Hf Hok Hj
                  (renderLinks_normal (links data) _ children Hk0)) as Hinit.
    assert (Hx : exec init d
                 = exec (renderLinks (links data))
                        (exec (updateProfile (profile data)) d))
      by (unfold exec at 1; now rewrite Hinit).
    split; [unfold result; now rewrite Hinit|]. rewrite Hx.
    destruct (updateProfile_keeps_container (profile data) d) as [Hk _].
    rewrite Hc in Hk. unfold exec at 1 3 5.
    destruct (links data) as [[|x l]|].
    + rewrite (renderLinks_none (Some []) _ children); auto.
    + rewrite (renderLinks_nonempty (x :: l) _ children); auto; [|discriminate].
      right. right. exists (filter isActive (x :: l)).
      cbn [fst linksContainer set_linksContainer].
      now rewrite mapiFrom_createLinkCard.
    + rewrite (renderLinks_none None _ children); auto.
  - assert (Htry : init_try d
      = (set_console (console d ++ [ConsoleError (js "Error loading JSON:") e]) d,
         Throw e)) by (unfold init_try, bind; now rewrite He).
    unfold result, exec, init, try_catch. rewrite Htry.
    rewrite handleError_page with (children := children) by exact Hc.
    cbn [fst snd]. split; [reflexivity | left; reflexivity].
Qed.

(** X18. Whatever fails in the [try] block of [init], [handleError] adds
    exactly one entry to the console, carrying the error caught, after what
    was logged before the failure; when it is [loadJSON] that fails, the
    console so gains exactly two entries, in this order: the loader's and the
    error presenter's, both carrying that error.  This holds with or without
    the link container. *)
Theorem init_failure_console (d : page) :
  (forall d1 e,
      init_try d = (d1, Throw e) ->
      console (exec init d)
      = console d1 ++ [ConsoleError (js "Application error:") e])
  /\ (forall e,
         result (loadJSON CONFIG.linksFile) d = Throw e ->
         console (exec init d)
         = console d ++ [ConsoleError (js "Error loading JSON:") e;
                         ConsoleError (js "Application error:") e]).
Proof.
  assert (HA : forall d1 e,
      init_try d = (d1, Throw e) ->
      console (exec init d)
      = console d1 ++ [ConsoleError (js "Application error:") e]).
  { intros d1 e Htry.
    destruct (handleError_frame e d1) as (_ & _ & _ & _ & _ & H).
    cbv zeta in H. unfold exec, init, try_catch in *. now rewrite Htry. }
  split; [exact HA|].
  intros e He.
  destruct (loadJSON_cases CONFIG.linksFile d)
    as [(r & data & _ & _ & _ & Hl) | (e' & Hl)];
    unfold result in He; rewrite Hl in He; cbn [snd] in He; [discriminate|].
  injection He as ->.
  assert (Htry : init_try d
    = (set_console (console d ++ [ConsoleError (js "Error loading JSON:") e]) d,
       Throw e)) by (unfold init_try, bind; now rewrite Hl).
  rewrite (HA _ _ Htry). cbn [console set_console].
  now rewrite <- app_assoc.
Qed.


End LinkTreeApp.

(** ** Runs on the sample inputs *)

(** C2. The token ["constructor"] is not a literal glyph and its normalized
    name is not a key of the icon table, yet the resolver returns the
    [Object] constructor found on the table's prototype instead of the
    default glyph. *)
Theorem getIcon_constructor_token :
  let token := js "constructor" in
  (N.of_nat (List.length token) <=? 3) && symbol_range_test token = false
  /\ trim (asciiLowerCase token) = js "constructor"
  /\ ownProperty (trim (asciiLowerCase token)) ICON_MAP = None
  /\ getIcon asciiLowerCase (Some token) = VNative ObjectConstructor
  /\ getIcon asciiLowerCase (Some token) <> ICON_MAP_get (js "default").
Proof.
  cbv zeta. repeat split; try reflexivity.
  vm_compute. discriminate.
Qed.

(** C3. On the tokens ["constructor"] and ["__proto__"] the resolver returns
    a built-in object, not a glyph string; assigned to the icon slot it reads
    as the text of that object. *)
Theorem getIcon_not_a_glyph :
  (forall glyph, getIcon asciiLowerCase (Some (js "constructor")) <> VString glyph)
  /\ (forall glyph, getIcon asciiLowerCase (Some (js "__proto__")) <> VString glyph)
  /\ toDOMString (getIcon asciiLowerCase (Some (js "constructor")))
     = js "function Object() { [native code] }"
  /\ toDOMString (getIcon asciiLowerCase (Some (js "__proto__")))
     = js "[object Object]".
Proof.
  repeat split; try reflexivity; intros glyph; vm_compute; discriminate.
Qed.

Lemma getIcon_literal_glyph_witness :
  (List.length (js "🚀") <= 3)%nat
  /\ (exists c, In c (codePoints (js "🚀")) /\ 0x1F300 <= c <= 0x1F9FF)
  /\ getIcon asciiLowerCase (Some (js "🚀")) = VString (js "🚀").
Proof.
  assert (H1 : (List.length (js "🚀") <= 3)%nat) by (vm_compute; lia).
  assert (H2 : exists c, In c (codePoints (js "🚀")) /\ 0x1F300 <= c <= 0x1F9FF).
  { exists 0x1F680. split; [left; reflexivity | split; discriminate]. }
  exact (conj H1 (conj H2 (getIcon_literal_glyph asciiLowerCase (js "🚀") H1 H2))).
Defined.

Lemma renderLinks_cards_witness :
  sampleLinks <> []
  /\ linksContainer samplePage = Some [Markup (js "<p>Loading links...</p>")]
  /\ cards (exec (renderLinks asciiLowerCase (Some sampleLinks)) samplePage)
     = [createLinkCard asciiLowerCase githubLink 0;
        createLinkCard asciiLowerCase emailLink 1]
  /\ List.length
       (cards (exec (renderLinks asciiLowerCase (Some sampleLinks)) samplePage))
     = 2%nat.
Proof.
  assert (H1 : sampleLinks <> []) by discriminate.
  assert (H2 : linksContainer samplePage
               = Some [Markup (js "<p>Loading links...</p>")]) by reflexivity.
  destruct (renderLinks_cards asciiLowerCase sampleLinks samplePage _ H1 H2)
    as (_ & _ & H3 & H4 & _).
  exact (conj H1 (conj H2 (conj H3 H4))).
Defined.

Lemma renderLinks_placeholder_witness :
  (Some (@nil Link.t) = None \/ Some (@nil Link.t) = Some [])
  /\ linksContainer samplePage = Some [Markup (js "<p>Loading links...</p>")]
  /\ linksContainer (exec (renderLinks asciiLowerCase (Some [])) samplePage)
     = Some [Markup NO_LINKS]
  /\ cards (exec (renderLinks asciiLowerCase (Some [])) samplePage) = [].
Proof.
  assert (H1 : Some (@nil Link.t) = None \/ Some (@nil Link.t) = Some [])
    by (right; reflexivity).
  assert (H2 : linksContainer samplePage
               = Some [Markup (js "<p>Loading links...</p>")]) by reflexivity.
  destruct (renderLinks_placeholder asciiLowerCase (Some []) samplePage _ H1 H2)
    as (_ & H3 & H4).
  exact (conj H1 (conj H2 (conj H3 H4))).
Defined.

Lemma renderLinks_all_inactive_witness :
  [hiddenLink] <> []
  /\ (forall link, In link [hiddenLink] -> Link.active link = Some false)
  /\ linksContainer samplePage = Some [Markup (js "<p>Loading links...</p>")]
  /\ linksContainer (exec (renderLinks asciiLowerCase (Some [hiddenLink])) samplePage)
     = Some []
  /\ cards (exec (renderLinks asciiLowerCase (Some [hiddenLink])) samplePage) = [].
Proof.
  assert (H1 : [hiddenLink] <> []) by discriminate.
  assert (H2 : forall link, In link [hiddenLink] -> Link.active link = Some false).
  { intros link [<- | []]. reflexivity. }
  assert (H3 : linksContainer samplePage
               = Some [Markup (js "<p>Loading links...</p>")]) by reflexivity.
  destruct (renderLinks_all_inactive asciiLowerCase [hiddenLink] samplePage _
                                     H1 H2 H3) as (_ & H4 & H5 & _).
  exact (conj H1 (conj H2 (conj H3 (conj H4 H5)))).
Defined.

Lemma updateProfile_frame_witness :
  Profile.bio sampleProfile = None
  /\ profileBio (exec (updateProfile (Some sampleProfile)) samplePage)
     = Some (js "Your bio").
Proof.
  destruct (updateProfile_frame sampleProfile samplePage) as (_ & _ & _ & H & _).
  exact (conj eq_refl (H eq_refl)).
Defined.

Lemma updateProfile_heading_witness :
  Profile.name sampleProfile = Some (js "Ada")
  /\ js "Ada" <> []
  /\ Profile.title sampleProfile = Some (js "Engineer")
  /\ js "Engineer" <> []
  /\ document_title (exec (updateProfile (Some sampleProfile)) samplePage)
     = js "Ada | Engineer".
Proof.
  assert (H1 : js "Ada" <> []) by discriminate.
  assert (H2 : js "Engineer" <> []) by discriminate.
  destruct (updateProfile_heading sampleProfile samplePage) as [H _].
  destruct (H (js "Ada") eq_refl H1) as [Ht _].
  exact (conj eq_refl (conj H1 (conj eq_refl (conj H2 (Ht (js "Engineer") eq_refl H2))))).
Defined.

(** C6, as stated, fails on a present but empty [name], which leaves the
    heading as it was, and on a present but empty [title], for which the
    heading ends in ["Links"]. *)
Lemma updateProfile_heading_counterexample :
  (Profile.name emptyNameProfile = Some (js "")
   /\ Profile.title emptyNameProfile = None
   /\ document_title (exec (updateProfile (Some emptyNameProfile)) samplePage)
      = js "Links"
   /\ document_title (exec (updateProfile (Some emptyNameProfile)) samplePage)
      <> js "" ++ js " | " ++ js "Links")
  /\ (Profile.name emptyTitleProfile = Some (js "Ada")
      /\ Profile.title emptyTitleProfile = Some (js "")
      /\ document_title (exec (updateProfile (Some emptyTitleProfile)) samplePage)
         = js "Ada | Links"
      /\ document_title (exec (updateProfile (Some emptyTitleProfile)) samplePage)
         <> js "Ada" ++ js " | " ++ js "").
Proof.
  repeat split; try reflexivity; vm_compute; discriminate.
Qed.

Lemma createLinkCard_description_witness :
  Link.description emailLink = Some (js "Say hello")
  /\ js "Say hello" <> []
  /\ getElementsByClassName "link-description"
                            (createLinkCard asciiLowerCase emailLink 0)
     = [Element "div" "link-description" [] [] [Text (js "Say hello")]].
Proof.
  assert (H1 : js "Say hello" <> []) by discriminate.
  destruct (createLinkCard_description asciiLowerCase emailLink 0) as (_ & H & _).
  exact (conj eq_refl (conj H1 (H (js "Say hello") eq_refl H1))).
Defined.

(** C9, as stated, fails on a present but empty description: the card has no
    description slot. *)
Lemma createLinkCard_description_counterexample :
  Link.description emptyDescriptionLink = Some (js "")
  /\ Link.description emptyDescriptionLink <> None
  /\ getElementsByClassName "link-description"
                            (createLinkCard asciiLowerCase emptyDescriptionLink 0)
     = []
  /\ ~ (exists slot,
           In slot (getElementsByClassName
                      "link-description"
                      (createLinkCard asciiLowerCase emptyDescriptionLink 0))).
Proof.
  repeat split; try reflexivity; try discriminate.
  intros [slot []].
Qed.

Lemma init_failure_witness :
  init_try asciiLowerCase fetchSample pageWithoutContainer
  = (exec (updateProfile (Some sampleProfile)) pageWithoutContainer,
     Throw (TypeError (js "Cannot set properties of null (setting 'innerHTML')")))
  /\ document_title (exec (init asciiLowerCase fetchSample) pageWithoutContainer)
     = js "Ada | Engineer"
  /\ profileName (exec (init asciiLowerCase fetchSample) pageWithoutContainer)
     = Some (js "Ada")
  /\ fetchNotOk CONFIG.linksFile = Some (mkResponse false None)
  /\ ok (mkResponse false None) = false
  /\ linksContainer samplePage = Some [Markup (js "<p>Loading links...</p>")]
  /\ document_title (exec (init asciiLowerCase fetchNotOk) samplePage) = js "Links"
  /\ profileName (exec (init asciiLowerCase fetchNotOk) samplePage)
     = Some (js "Your Name")
  /\ linksContainer (exec (init asciiLowerCase fetchNotOk) samplePage)
     = Some [Markup ERROR_VIEW]
  /\ cards (exec (init asciiLowerCase fetchNotOk) samplePage) = []
  /\ (let try_block :=
         updateProfile (Some sampleProfile) ;;
         linksContainer_set_innerHTML (js "") ;;
         linksContainer_appendChild (createLinkCard asciiLowerCase githubLink 0) ;;
         throw (TypeError (js "iconName.toLowerCase is not a function")) in
       let guarded := try_catch try_block (fun error => handleError error) in
       result try_block samplePage
       = Throw (TypeError (js "iconName.toLowerCase is not a function"))
       /\ cards (exec try_block samplePage)
          = [createLinkCard asciiLowerCase githubLink 0]
       /\ result guarded samplePage = Normal tt
       /\ linksContainer (exec guarded samplePage) = Some [Markup ERROR_VIEW]
       /\ cards (exec guarded samplePage) = []
       /\ document_title (exec guarded samplePage) = js "Ada | Engineer").
Proof.
  destruct (init_failure asciiLowerCase fetchSample pageWithoutContainer)
    as (_ & HB & _).
  destruct (HB _ _ eq_refl) as (H1 & _ & H2 & _).
  destruct (init_failure asciiLowerCase fetchNotOk samplePage) as (_ & _ & HC).
  destruct (HC _ eq_refl eq_refl) as (H3 & _ & H4 & _ & _ & H5).
  destruct (H5 _ eq_refl) as (_ & H6 & H7).
  destruct (init_failure asciiLowerCase fetchNotOk samplePage) as (HA & _).
  destruct (HA (updateProfile (Some sampleProfile) ;;
                linksContainer_set_innerHTML (js "") ;;
                linksContainer_appendChild (createLinkCard asciiLowerCase githubLink 0) ;;
                throw (TypeError (js "iconName.toLowerCase is not a function")))
               _ _ eq_refl) as (H8 & _ & _ & _ & _ & H9).
  destruct (H9 _ eq_refl) as (H10 & H11 & H12).
  exact (conj eq_refl (conj H1 (conj H2 (conj eq_refl (conj eq_refl (conj eq_refl
          (conj H3 (conj H4 (conj H6 (conj H7
            (conj eq_refl (conj eq_refl (conj H10 (conj H11 (conj H12 H8))))))))))))))).
Defined.

(** ** Further runs on the sample inputs *)

Lemma getIcon_same_normalized_name_witness :
  js "GitHub" <> []
  /\ js "  github " <> []
  /\ (N.of_nat (List.length (js "GitHub")) <=? 3)
     && symbol_range_test (js "GitHub") = false
  /\ (N.of_nat (List.length (js "  github ")) <=? 3)
     && symbol_range_test (js "  github ") = false
  /\ trim (asciiLowerCase (js "GitHub")) = trim (asciiLowerCase (js "  github "))
  /\ getIcon asciiLowerCase (Some (js "GitHub"))
     = getIcon asciiLowerCase (Some (js "  github ")).
Proof.
  assert (H1 : js "GitHub" <> []) by discriminate.
  assert (H2 : js "  github " <> []) by discriminate.
  exact (conj H1 (conj H2 (conj eq_refl (conj eq_refl (conj eq_refl
          (getIcon_same_normalized_name asciiLowerCase _ _ H1 H2
                                        eq_refl eq_refl eq_refl)))))).
Defined.

Lemma getIcon_table_names_witness :
  In (js "github", js "👨‍💻") ICON_MAP
  /\ asciiLowerCase (js "github") = js "github"
  /\ getIcon asciiLowerCase (Some (js "github")) = VString (js "👨‍💻").
Proof.
  assert (H1 : In (js "github", js "👨‍💻") ICON_MAP)
    by (do 4 right; left; reflexivity).
  exact (conj H1 (conj eq_refl
          (getIcon_table_names asciiLowerCase _ _ H1 eq_refl))).
Defined.

Lemma renderLinks_replaces_content_witness :
  linksContainer samplePage = Some [Markup (js "<p>Loading links...</p>")]
  /\ exec (renderLinks asciiLowerCase (Some sampleLinks))
          (exec (renderLinks asciiLowerCase (Some sampleLinks)) samplePage)
     = exec (renderLinks asciiLowerCase (Some sampleLinks)) samplePage.
Proof.
  exact (conj eq_refl
          (proj2 (renderLinks_replaces_content asciiLowerCase (Some sampleLinks)
                                               samplePage _ eq_refl))).
Defined.

Lemma renderLinks_no_container_witness :
  linksContainer pageWithoutContainer = None
  /\ exists message,
       renderLinks asciiLowerCase (Some sampleLinks) pageWithoutContainer
       = (pageWithoutContainer, Throw (TypeError message)).
Proof.
  exact (conj eq_refl
          (renderLinks_no_container asciiLowerCase (Some sampleLinks)
                                    pageWithoutContainer eq_refl)).
Defined.

Lemma updateProfile_text_slots_witness :
  Profile.name sampleProfile = Some (js "Ada")
  /\ js "Ada" <> []
  /\ profileName samplePage = Some (js "Your Name")
  /\ profileName (exec (updateProfile (Some sampleProfile)) samplePage)
     = Some (js "Ada").
Proof.
  assert (H1 : js "Ada" <> []) by discriminate.
  exact (conj eq_refl (conj H1 (conj eq_refl
          (proj1 (updateProfile_text_slots sampleProfile samplePage)
                 (js "Ada") (js "Your Name") eq_refl H1 eq_refl)))).
Defined.

Lemma updateProfile_image_slot_witness :
  Profile.image sampleProfile = Some (js "me.png")
  /\ js "me.png" <> []
  /\ profileImage samplePage = Some (mkImage (js "avatar.png") (js "Profile"))
  /\ Profile.name sampleProfile = Some (js "Ada")
  /\ js "Ada" <> []
  /\ profileImage (exec (updateProfile (Some sampleProfile)) samplePage)
     = Some (mkImage (js "me.png") (js "Ada")).
Proof.
  assert (H1 : js "me.png" <> []) by discriminate.
  assert (H2 : js "Ada" <> []) by discriminate.
  exact (conj eq_refl (conj H1 (conj eq_refl (conj eq_refl (conj H2
          (proj1 (updateProfile_image_slot sampleProfile samplePage (js "me.png")
                                           _ eq_refl H1 eq_refl)
                 (js "Ada") eq_refl H2)))))).
Defined.

Lemma loadJSON_failure_witness :
  result (loadJSON fetchNotOk CONFIG.linksFile) samplePage
  = Throw (LoadFailure (js "Failed to load links.json"))
  /\ exec (loadJSON fetchNotOk CONFIG.linksFile) samplePage
     = set_console
         [ConsoleError (js "Error loading JSON:")
                       (LoadFailure (js "Failed to load links.json"))]
         samplePage.
Proof.
  assert (H1 : result (loadJSON fetchNotOk CONFIG.linksFile) samplePage
               = Throw (LoadFailure (js "Failed to load links.json")))
    by reflexivity.
  exact (conj H1 (proj1 (loadJSON_failure fetchNotOk _ samplePage _ H1))).
Defined.

Lemma init_success_witness :
  fetchSample CONFIG.linksFile = Some (mkResponse true (Some sampleDocument))
  /\ ok (mkResponse true (Some sampleDocument)) = true
  /\ json (mkResponse true (Some sampleDocument)) = Some sampleDocument
  /\ result (updateProfile (profile sampleDocument)) samplePage = Normal tt
  /\ result (renderLinks asciiLowerCase (links sampleDocument))
            (exec (updateProfile (profile sampleDocument)) samplePage)
     = Normal tt
  /\ console (exec (init asciiLowerCase fetchSample) samplePage) = []
  /\ linksContainer (exec (init asciiLowerCase fetchSample) samplePage)
     <> Some [Markup ERROR_VIEW].
Proof.
  exact (conj eq_refl (conj eq_refl (conj eq_refl (conj eq_refl (conj eq_refl
          (proj2 (init_success asciiLowerCase fetchSample samplePage _ _
                               eq_refl eq_refl eq_refl eq_refl eq_refl))))))).
Defined.

Lemma init_no_container_witness :
  linksContainer pageWithoutContainer = None
  /\ (exists message,
         result (init asciiLowerCase fetchSample) pageWithoutContainer
         = Throw (TypeError message))
  /\ linksContainer (exec (init asciiLowerCase fetchSample) pageWithoutContainer)
     = None.
Proof.
  exact (conj eq_refl
          (init_no_container asciiLowerCase fetchSample pageWithoutContainer
                             eq_refl)).
Defined.

Lemma init_outcomes_witness :
  linksContainer samplePage = Some [Markup (js "<p>Loading links...</p>")]
  /\ result (init asciiLowerCase fetchSample) samplePage = Normal tt.
Proof.
  exact (conj eq_refl
          (proj1 (init_outcomes asciiLowerCase fetchSample samplePage _ eq_refl))).
Defined.

Lemma click_card_tracks_witness :
  Link.analytics emailLink = Some true
  /\ console_log (click (createLinkCard asciiLowerCase emailLink 0) sampleTracking)
     = [(js "Link clicked:", js "Email", js "mailto:ada@example.org")]
  /\ gtag (click (createLinkCard asciiLowerCase emailLink 0) sampleTracking)
     = Some [Gtag.mk (js "event") (js "click") (js "Link")
                     (js "Email") (js "mailto:ada@example.org")].
Proof.
  exact (conj eq_refl
          (proj1 (click_card_tracks asciiLowerCase emailLink 0 sampleTracking)
                 eq_refl)).
Defined.

Lemma init_failure_console_witness :
  result (loadJSON fetchNotOk CONFIG.linksFile) samplePage
  = Throw (LoadFailure (js "Failed to load links.json"))
  /\ console (exec (init asciiLowerCase fetchNotOk) samplePage)
     = [ConsoleError (js "Error loading JSON:")
                     (LoadFailure (js "Failed to load links.json"));
        ConsoleError (js "Application error:")
                     (LoadFailure (js "Failed to load links.json"))]
  /\ init_try asciiLowerCase fetchSample pageWithoutContainer
     = (exec (updateProfile (Some sampleProfile)) pageWithoutContainer,
        Throw (TypeError (js "Cannot set properties of null (setting 'innerHTML')")))
  /\ console (exec (init asciiLowerCase fetchSample) pageWithoutContainer)
     = [ConsoleError
          (js "Application error:")
          (TypeError (js "Cannot set properties of null (setting 'innerHTML')"))].
Proof.
  exact (conj eq_refl
          (conj (proj2 (init_failure_console asciiLowerCase fetchNotOk samplePage)
                       _ eq_refl)
          (conj eq_refl
                (proj1 (init_failure_console asciiLowerCase fetchSample
                                             pageWithoutContainer)
                       _ _ eq_refl)))).
Defined.
